(** * corona-calculator: the rate configuration, the control surface and the
      projection run, embedded and checked against the specification.

    Sources embedded:
    - [data/constants.py]: the class-level rate constants;
    - [app.py]: the [Sidebar] control surface and [run_app].

    Numbers.  Python evaluates the constants and the projection in binary64
    floating point.  The development reasons over exact rationals ([Q]), the
    values the decimal literals denote, and integers ([Z]) where the source
    has Python ints.  Module [binary64] restates the constants with Rocq's
    primitive binary64 floats and shows that every comparison used below has
    the same verdict there. *)

From Stdlib Require Import QArith Qminmax Qround Lqa ZArith Lia List String Bool.
From Stdlib Require Import Floats.PrimFloat.
From stdpp Require Import base option list strings gmap.

Local Open Scope Q_scope.

(** ** data/constants.py *)

Module constants.

(** SIR model constants *)

Module RemovalRate.
Definition min : Q := 1 / 7.
Definition default : Q := 1 / 10.  (* Recovery period around 10 days *)
Definition max : Q := 1 / 14.
End RemovalRate.

Module TransmissionRatePerContact.
(* Probability of a contact between carrier and susceptible leading to
       infection *)
Definition min : Q := 0.01.
Definition default : Q := 0.018.
Definition max : Q := 0.022.
End TransmissionRatePerContact.

Module AverageDailyContacts.
(* Python ints *)
Definition min : Z := 0.
Definition max : Z := 100.
Definition default : Z := 20.
End AverageDailyContacts.

(** Health care constants *)

Module AscertainmentRate.
(* Proportion of true cases diagnosed *)
Definition min : Q := 0.05.
Definition max : Q := 0.25.
Definition default : Q := 0.1.
End AscertainmentRate.

Module MortalityRate.
Definition min : Q := 0.005.
Definition max : Q := 0.05.
Definition default : Q := 0.01.
End MortalityRate.

Module HospitalizationRate.
(* Cases requiring hospitalization *)
Definition min : Q := 0.1.
Definition max : Q := 0.2.
Definition default : Q := 0.15.
End HospitalizationRate.

Module VentilationRate.
(* Cases requiring ICU care *)
Definition min : Q := 0.01.
Definition max : Q := 0.02.
Definition default : Q := 0.015.
End VentilationRate.

End constants.

(** The same class bodies evaluated in binary64, as the interpreter does:
    [1 / 7] is a float division, a decimal literal is the nearest double. *)

Module binary64.
Local Open Scope float_scope.
Local Set Warnings "-inexact-float".

Module RemovalRate.
Definition min : float := 1 / 7.
Definition default : float := 1 / 10.
Definition max : float := 1 / 14.
End RemovalRate.

Module TransmissionRatePerContact.
Definition min : float := 0.01.
Definition default : float := 0.018.
Definition max : float := 0.022.
End TransmissionRatePerContact.

Module AscertainmentRate.
Definition min : float := 0.05.
Definition max : float := 0.25.
Definition default : float := 0.1.
End AscertainmentRate.

Module MortalityRate.
Definition min : float := 0.005.
Definition max : float := 0.05.
Definition default : float := 0.01.
End MortalityRate.

Module HospitalizationRate.
Definition min : float := 0.1.
Definition max : float := 0.2.
Definition default : float := 0.15.
End HospitalizationRate.

Module VentilationRate.
Definition min : float := 0.01.
Definition max : float := 0.02.
Definition default : float := 0.015.
End VentilationRate.

(** [a <= b <= c], Python's chained comparison on floats. *)
Definition ordered (a b c : float) : bool := (a <=? b) && (b <=? c).

(** [0 <= a <= 1] on floats. *)
Definition in_unit (a : float) : bool := (0 <=? a) && (a <=? 1).

(** The six float-valued classes, as (min, default, max). *)
Definition rates : list (string * (float * float * float)) :=
  [ ("RemovalRate",
      (RemovalRate.min, RemovalRate.default, RemovalRate.max));
    ("TransmissionRatePerContact",
      (TransmissionRatePerContact.min, TransmissionRatePerContact.default,
       TransmissionRatePerContact.max));
    ("AscertainmentRate",
      (AscertainmentRate.min, AscertainmentRate.default,
       AscertainmentRate.max));
    ("MortalityRate",
      (MortalityRate.min, MortalityRate.default, MortalityRate.max));
    ("HospitalizationRate",
      (HospitalizationRate.min, HospitalizationRate.default,
       HospitalizationRate.max));
    ("VentilationRate",
      (VentilationRate.min, VentilationRate.default, VentilationRate.max)) ].

(** The names of [rates] whose triple passes the test [f]. *)
Definition passing (f : float -> float -> float -> bool) : list string :=
  map fst (List.filter (fun '(_, (a, b, c)) => f a b c) rates).

(** The literals of end-to-end scenario 1, as doubles. *)
Definition lit_0_018 : float := 0.018.
Definition lit_0_1 : float := 0.1.

(** The day step of the compartmental model (see [models.step] below) on
    doubles, the clamp written [max(0, min(x, N))]. *)
Definition clamp (N x : float) : float :=
  let low := if N <? x then N else x in
  if 0 <? low then low else 0.

Definition step (transmission contact removal N : float)
    (st : float * float * float) : float * float * float :=
  let '(S_t, I_t, R_t) := st in
  let newInfections := transmission * contact * S_t * I_t / N in
  let newRemovals := removal * I_t in
  (clamp N (S_t - newInfections),
   clamp N (I_t + newInfections - newRemovals),
   clamp N (R_t + newRemovals)).

Definition total (st : float * float * float) : float :=
  let '(S_t, I_t, R_t) := st in S_t + I_t + R_t.
End binary64.

(** ** The RateParameter view of the configuration

    The spec's [RateParameter] is a named triple; [rate_parameters] lists the
    seven classes of [constants] in source order, the contact counts injected
    into [Q]. *)

Record RateParameter : Type := mkRateParameter {
  rate_name : string;
  rate_min : Q;
  rate_default : Q;
  rate_max : Q
}.

Definition RemovalRate : RateParameter :=
  mkRateParameter "RemovalRate"
    constants.RemovalRate.min constants.RemovalRate.default
    constants.RemovalRate.max.

Definition TransmissionRatePerContact : RateParameter :=
  mkRateParameter "TransmissionRatePerContact"
    constants.TransmissionRatePerContact.min
    constants.TransmissionRatePerContact.default
    constants.TransmissionRatePerContact.max.

Definition AverageDailyContacts : RateParameter :=
  mkRateParameter "AverageDailyContacts"
    (inject_Z constants.AverageDailyContacts.min)
    (inject_Z constants.AverageDailyContacts.default)
    (inject_Z constants.AverageDailyContacts.max).

Definition AscertainmentRate : RateParameter :=
  mkRateParameter "AscertainmentRate"
    constants.AscertainmentRate.min constants.AscertainmentRate.default
    constants.AscertainmentRate.max.

Definition MortalityRate : RateParameter :=
  mkRateParameter "MortalityRate"
    constants.MortalityRate.min constants.MortalityRate.default
    constants.MortalityRate.max.

Definition HospitalizationRate : RateParameter :=
  mkRateParameter "HospitalizationRate"
    constants.HospitalizationRate.min constants.HospitalizationRate.default
    constants.HospitalizationRate.max.

Definition VentilationRate : RateParameter :=
  mkRateParameter "VentilationRate"
    constants.VentilationRate.min constants.VentilationRate.default
    constants.VentilationRate.max.

Definition rate_parameters : list RateParameter :=
  [ RemovalRate; TransmissionRatePerContact; AverageDailyContacts;
    AscertainmentRate; MortalityRate; HospitalizationRate; VentilationRate ].

(** The rate parameters other than the one called [name]. *)
Definition all_but (name : string) : list RateParameter :=
  List.filter (fun p => negb (String.eqb (rate_name p) name)) rate_parameters.

(** [min <= default <= max] *)
Definition rate_ordered (p : RateParameter) : Prop :=
  rate_min p <= rate_default p /\ rate_default p <= rate_max p.

Definition rate_orderedb (p : RateParameter) : bool :=
  Qle_bool (rate_min p) (rate_default p)
  && Qle_bool (rate_default p) (rate_max p).

(** a value is a fraction in [0,1] *)
Definition unit_fraction (x : Q) : Prop := 0 <= x /\ x <= 1.

Definition unit_fractionb (x : Q) : bool := Qle_bool 0 x && Qle_bool x 1.

Definition rate_in_unit (p : RateParameter) : Prop :=
  unit_fraction (rate_min p) /\ unit_fraction (rate_default p)
  /\ unit_fraction (rate_max p).

Definition rate_in_unitb (p : RateParameter) : bool :=
  unit_fractionb (rate_min p) && unit_fractionb (rate_default p)
  && unit_fractionb (rate_max p).

(** ** Failure

    Python exceptions are the [Raise] results of a small error monad. *)

Inductive exn : Type :=
| InvalidParameterError
| KeyError
| StreamlitAPIException
| AttributeError
| TypeError
| ValueError.

Inductive result (A : Type) : Type :=
| Ok (a : A)
| Raise (e : exn).

Arguments Ok {A} a.
Arguments Raise {A} e.

Definition bind {A B : Type} (r : result A) (k : A -> result B) : result B :=
  match r with
  | Ok a => k a
  | Raise e => Raise e
  end.

Notation "x <- e ;; k" := (bind e (fun x => k))
  (at level 100, e at next level, right associativity).

(** [d[k]] on a dict whose insertion order matters, kept as an association
    list. *)
Fixpoint dict_get {V : Type} (d : list (string * V)) (k : string) : result V :=
  match d with
  | [] => Raise KeyError
  | (k', v) :: d' => if String.eqb k k' then Ok v else dict_get d' k
  end.

(** [list(d.keys())] *)
Definition dict_keys {V : Type} (d : list (string * V)) : list string :=
  map fst d.

(** ** The projection engine *)

Module models.

(** Modelled from the spec: [models.py] ([SIRModel], [TrueInfectedCasesModel],
    [DeathTollModel], [HospitalizationModel], [get_predictions]) is not among
    the sources; [app.py] only constructs and calls them.  The definitions of
    this module follow sections 3, 4 and 7 of the specification, under the
    names [app.py] uses. *)
Inductive Status : Type :=
| Confirmed
| TrueInfected
| Infected
| Recovered
| Dead
| NeedHospitalization   (* "Need Hospitalization" in app.py *)
| NeedVentilation.      (* "Need Ventilation" in app.py *)

#[global] Instance Status_eq_dec : EqDecision Status.
Proof. solve_decision. Defined.

(** Modelled from the spec: ProjectionRow of section 3, one (day, status,
    forecast) row of the long-form table. *)
Record Row : Type := mkRow {
  Day : nat;
  Status_ : Status;
  Forecast : Q
}.

Definition DataFrame : Type := list Row.

(** *** 4.1 AscertainmentModel *)

(** Modelled from the spec: the object [models.TrueInfectedCasesModel]
    builds, its configured rate. *)
Record TrueInfectedCases : Type := { ascertainmentRate : Q }.

(** Modelled from the spec: the constructor of section 4.1; construction
    fails unless the rate lies in (0, 1]. *)
Definition TrueInfectedCasesModel (rate : Q) : result TrueInfectedCases :=
  if Qle_bool rate 0 || negb (Qle_bool rate 1)
  then Raise InvalidParameterError
  else Ok {| ascertainmentRate := rate |}.

(** Modelled from the spec: [predict(confirmed) = confirmed /
    ascertainmentRate]. *)
Definition true_cases_predict (m : TrueInfectedCases) (confirmed : Q) : Q :=
  confirmed / ascertainmentRate m.

(** *** 4.2 CompartmentalModel *)

(** Modelled from the spec: the object [models.SIRModel] builds, its three
    constructor arguments. *)
Record SIR : Type := {
  transmissionRatePerContact : Q;
  dailyContactRate : Q;
  removalRate : Q
}.

(** Modelled from the spec: the constructor of section 4.2; transmission and
    removal rates are daily probabilities in [0,1], the contact rate is
    non-negative. *)
Definition SIRModel (transmission contact removal : Q) : result SIR :=
  if unit_fractionb transmission && Qle_bool 0 contact
     && unit_fractionb removal
  then Ok {| transmissionRatePerContact := transmission;
             dailyContactRate := contact;
             removalRate := removal |}
  else Raise InvalidParameterError.

(** Modelled from the spec: SimulationState of section 3, the triple
    (S_t, I_t, R_t). *)
Record SimulationState : Type := mkState {
  S_t : Q;
  I_t : Q;
  R_t : Q
}.

(** Modelled from the spec: the clamp of a compartment to [0, N]. *)
Definition clamp (N x : Q) : Q := Qmax 0 (Qmin x N).

(** Modelled from the spec: the update rule of section 4.2, one forward-Euler
    day, every compartment clamped after the step. *)
Definition step (m : SIR) (N : Q) (st : SimulationState) : SimulationState :=
  let newInfections :=
    transmissionRatePerContact m * dailyContactRate m * S_t st * I_t st / N in
  let newRemovals := removalRate m * I_t st in
  {| S_t := clamp N (S_t st - newInfections);
     I_t := clamp N (I_t st + newInfections - newRemovals);
     R_t := clamp N (R_t st + newRemovals) |}.

(** Modelled from the spec: the states of day 0 (the given one) to day
    [days]; always the full horizon, no early exit. *)
Fixpoint trajectory (m : SIR) (N : Q) (st : SimulationState) (days : nat)
  : list SimulationState :=
  st :: match days with
        | O => []
        | S d => trajectory m N (step m N st) d
        end.

(** Modelled from the spec: [S_0 = N - I_0], [I_0] as given, [R_0 = 0]. *)
Definition initial_state (initialInfected totalPopulation : Q)
  : SimulationState :=
  {| S_t := totalPopulation - initialInfected;
     I_t := initialInfected;
     R_t := 0 |}.

(** Modelled from the spec: [simulate(initialInfected, totalPopulation,
    horizonDays)], one entry per day from 0 to [horizonDays]; a non-positive
    population is rejected (sections 4.2 and 7). *)
Definition simulate (m : SIR) (initialInfected totalPopulation : Q)
    (horizonDays : nat) : result (list SimulationState) :=
  if Qle_bool totalPopulation 0
  then Raise InvalidParameterError
  else Ok (trajectory m totalPopulation
             (initial_state initialInfected totalPopulation) horizonDays).

(** *** What the specification asks of a SimulationState *)



(** *** 4.3 ClinicalBurdenModels *)

(** Modelled from the spec: the object [models.DeathTollModel] builds. *)
Record DeathToll : Type := { mortalityRate : Q }.

(** Modelled from the spec: the constructor; the rate must lie in [0,1]. *)
Definition DeathTollModel (rate : Q) : result DeathToll :=
  if unit_fractionb rate
  then Ok {| mortalityRate := rate |}
  else Raise InvalidParameterError.

(** Modelled from the spec: [deaths = infected * mortalityRate]. *)
Definition death_toll_predict (m : DeathToll) (infected : Q) : Q :=
  infected * mortalityRate m.

(** Modelled from the spec: the object [models.HospitalizationModel]
    builds. *)
Record Hospitalization : Type := {
  hospitalizationRate : Q;
  ventilationRate : Q
}.

(** Modelled from the spec: the constructor; both rates must lie in
    [0,1]. *)
Definition HospitalizationModel (hospitalization ventilation : Q)
  : result Hospitalization :=
  if unit_fractionb hospitalization && unit_fractionb ventilation
  then Ok {| hospitalizationRate := hospitalization;
             ventilationRate := ventilation |}
  else Raise InvalidParameterError.

(** Modelled from the spec: [needHospitalization = infected *
    hospitalizationRate]. *)
Definition need_hospitalization (m : Hospitalization) (infected : Q) : Q :=
  infected * hospitalizationRate m.

(** Modelled from the spec: [needVentilation = infected *
    hospitalizationRate * ventilationRate]. *)
Definition need_ventilation (m : Hospitalization) (infected : Q) : Q :=
  infected * hospitalizationRate m * ventilationRate m.

(** *** 4.4 ProjectionPipeline *)

(** Modelled from the spec: the rows of one status, day by day from
    [day]. *)
Fixpoint series (status : Status) (f : SimulationState -> Q) (day : nat)
    (states : list SimulationState) : DataFrame :=
  match states with
  | [] => []
  | st :: rest => mkRow day status (f st) :: series status f (S day) rest
  end.

(** Modelled from the spec: steps 1 to 6 of the pipeline of section 4.4,
    with the arguments [app.py] passes: the four models, the confirmed cases,
    the population and the horizon.  The contact rate of the run is the one
    the SIR model was built with. *)
Definition get_predictions
    (true_cases_estimator : TrueInfectedCases) (sir_model : SIR)
    (death_toll_model : DeathToll) (hospitalization_model : Hospitalization)
    (number_cases_confirmed population : Q) (num_days : Z)
  : result DataFrame :=
  let trueInitialInfected :=
    true_cases_predict true_cases_estimator number_cases_confirmed in
  states <- simulate sir_model trueInitialInfected population
              (Z.to_nat num_days) ;;
  Ok (series TrueInfected (fun st => I_t st + R_t st) 0 states
      ++ series Infected I_t 0 states
      ++ series Dead
           (fun st => death_toll_predict death_toll_model (I_t st + R_t st))
           0 states
      ++ series NeedHospitalization
           (fun st => need_hospitalization hospitalization_model (I_t st))
           0 states
      ++ series NeedVentilation
           (fun st => need_ventilation hospitalization_model (I_t st))
           0 states
      ++ [mkRow 0 Confirmed number_cases_confirmed]).

End models.

(** ** app.py *)

Module app.

(** One entry of the per-country table [app.py] reads as
    [constants.Countries.country_data] (the table [constants.py] loads from
    [data/country_data.csv]; there the attribute is called [data]).  A numeric
    CSV cell is an int or a float, a rational either way. *)
Record CountryData : Type := {
  Population : Q;
  Confirmed : Q;
  Recovered : Q;
  Deaths : Q;
  Num_Hospital_Beds : Q
}.

(** What [app.py] reads of [constants.Countries]: the table
    [country_data] and the list [countries].  An input of the functions
    below; how the class of [constants.py] as written answers the two reads
    is [Countries_class] and [getattr] further down. *)
Record Countries : Type := {
  country_data : gmap string CountryData;
  countries : list string
}.

(** The same entry with another number of hospital beds. *)
Definition set_beds (e : CountryData) (beds : Q) : CountryData :=
  {| Population := Population e;
     Confirmed := Confirmed e;
     Recovered := Recovered e;
     Deaths := Deaths e;
     Num_Hospital_Beds := beds |}.

(** The same table with the bed count of every country replaced, that of
    country [name] by [beds name]. *)
Definition with_beds (beds : string -> Q) (c : Countries) : Countries :=
  {| country_data :=
       map_imap (fun name e => Some (set_beds e (beds name))) (country_data c);
     countries := countries c |}.

(** *** The widgets of the control surface

    The widgets are Streamlit's.  The state of the page (what the user last
    picked) is the input [UI]; [None] is a widget not touched yet. *)
Record UI : Type := {
  chosen_country : option nat;   (* position picked in the select box *)
  slider_handle : option Z;      (* value the slider handle stands at *)
  chosen_period : option nat     (* position picked among the radio buttons *)
}.

(** [st.sidebar.selectbox]: the option picked, the first one to begin with;
    [None] when there is nothing to pick from. *)
Definition st_selectbox (options : list string) (choice : option nat)
  : option string :=
  options !! default 0%nat choice.

(** [st.sidebar.slider]: the value the handle stands at, [value] to begin
    with.  Streamlit refuses a value outside [min_value, max_value]. *)
Definition st_slider (min_value max_value value : Z) (handle : option Z)
  : result Z :=
  let v := default value handle in
  if ((min_value <=? value) && (value <=? max_value))%Z
     && ((min_value <=? v) && (v <=? max_value))%Z
  then Ok v
  else Raise StreamlitAPIException.

(** [st.sidebar.radio]: the option picked, the one at [index] to begin
    with. *)
Definition st_radio (options : list string) (index : nat)
    (choice : option nat) : result string :=
  match options !! default index choice with
  | Some o => Ok o
  | None => Raise StreamlitAPIException
  end.

(** *** class Sidebar *)

Definition horizon : list (string * Z) :=
  [ ("3  months", 90%Z);
    ("6 months", 180%Z);
    ("12  months", 365%Z) ].

Record SidebarState : Type := {
  country : option string;
  contact_rate : Z;
  num_days_for_prediction : Z
}.

(** [constants.Countries.country_data[country]] *)
Definition country_lookup (c : Countries) (country : option string)
  : result CountryData :=
  match country with
  | Some name =>
      match country_data c !! name with
      | Some r => Ok r
      | None => Raise KeyError
      end
  | None => Raise KeyError
  end.

(** The class body, run once per page run.  The markdown it writes to the
    side bar is display only and left out. *)
Definition Sidebar (c : Countries) (ui : UI) : result SidebarState :=
  let country := st_selectbox (countries c) (chosen_country ui) in
  _ <- match country with
       | Some name =>
           if String.eqb name ""
           then Ok tt   (* [if country:] not taken *)
           else (_ <- country_lookup c country ;; Ok tt)
       | None => Ok tt  (* [if country:] not taken *)
       end ;;
  contact_rate <- st_slider constants.AverageDailyContacts.min
                    constants.AverageDailyContacts.max
                    constants.AverageDailyContacts.default
                    (slider_handle ui) ;;
  _num_days_for_prediction <-
    st_radio (dict_keys horizon) 0 (chosen_period ui) ;;
  num_days_for_prediction <- dict_get horizon _num_days_for_prediction ;;
  Ok {| country := country;
        contact_rate := contact_rate;
        num_days_for_prediction := num_days_for_prediction |}.

(** *** run_app *)

(** The four model objects of lines 95 to 106. *)
Record Models : Type := {
  sir_model : models.SIR;
  true_cases_estimator : models.TrueInfectedCases;
  death_toll_model : models.DeathToll;
  hospitalization_model : models.Hospitalization
}.

Definition run_app_models (contact_rate : Z) : result Models :=
  sir_model <- models.SIRModel
                 constants.TransmissionRatePerContact.default
                 (inject_Z contact_rate)
                 constants.RemovalRate.default ;;
  true_cases_estimator <-
    models.TrueInfectedCasesModel constants.AscertainmentRate.default ;;
  death_toll_model <- models.DeathTollModel constants.MortalityRate.default ;;
  hospitalization_model <-
    models.HospitalizationModel constants.HospitalizationRate.default
      constants.VentilationRate.default ;;
  Ok {| sir_model := sir_model;
        true_cases_estimator := true_cases_estimator;
        death_toll_model := death_toll_model;
        hospitalization_model := hospitalization_model |}.

(** [series.max()]: no value (NaN) on an empty series. *)
Definition series_max (xs : list Q) : option Q :=
  match xs with
  | [] => None
  | x :: rest => Some (fold_left Qmax rest x)
  end.

(** [df.Status == status], row by row *)
Definition has_status (status : models.Status) (r : models.Row) : bool :=
  bool_decide (models.Status_ r = status).

(** [df.loc[df.Status == "Need Hospitalization"]["Forecast"].max()] *)
Definition peak_occupancy (df : models.DataFrame) : option Q :=
  series_max
    (map models.Forecast
       (List.filter (has_status models.NeedHospitalization) df)).

(** [min(100 * num_hospital_beds / peak_occupancy, 100)].  There is no guard
    on the divisor.  The peak is the numpy scalar [Series.max()] returns, so a
    zero peak raises nothing: the float quotient is inf for a positive number
    of beds, which [min] caps at 100, nan for zero beds and -inf for a
    negative number, and [min] returns those two as they are.  [None] is a
    result that is no finite number (nan or -inf); a missing peak (nan) gives
    nan. *)
Definition percent_beds_at_peak (num_hospital_beds : Q)
    (peak_occupancy : option Q) : option Q :=
  match peak_occupancy with
  | Some peak =>
      if Qeq_bool peak 0
      then if Qle_bool num_hospital_beds 0 then None else Some 100
      else Some (Qmin (100 * num_hospital_beds / peak) 100)
  | None => None
  end.

(** What a run computes: the table handed to the charts, the peak and the
    share of beds.  Charts and text are display only. *)
Record RunApp : Type := {
  df : models.DataFrame;
  peak : option Q;
  percent : option Q
}.

Section run_app.

(** [models.get_predictions], whatever its body. *)
Variable get_predictions :
  models.TrueInfectedCases -> models.SIR -> models.DeathToll ->
  models.Hospitalization -> Q -> Q -> Z -> result models.DataFrame.

(** Lines 86 to 116: from the side bar and the country's entry to [df]. *)
Definition run_app_df (c : Countries) (ui : UI) : result models.DataFrame :=
  sb <- Sidebar c ui ;;
  entry <- country_lookup c (country sb) ;;
  let number_cases_confirmed := Confirmed entry in
  let population := Population entry in
  ms <- run_app_models (contact_rate sb) ;;
  get_predictions (true_cases_estimator ms) (sir_model ms)
    (death_toll_model ms) (hospitalization_model ms)
    number_cases_confirmed population (num_days_for_prediction sb).

Definition run_app (c : Countries) (ui : UI) : result RunApp :=
  sb <- Sidebar c ui ;;
  entry <- country_lookup c (country sb) ;;
  let num_hospital_beds := Num_Hospital_Beds entry in
  df <- run_app_df c ui ;;
  let peak_occupancy := peak_occupancy df in
  let percent_beds_at_peak :=
    percent_beds_at_peak num_hospital_beds peak_occupancy in
  Ok {| df := df; peak := peak_occupancy; percent := percent_beds_at_peak |}.

End run_app.

(** *** Pages and tables to run the app on *)

(** The page as first loaded. *)
Definition untouched : UI :=
  {| chosen_country := None; slider_handle := None; chosen_period := None |}.

(** A table with one country. *)
Definition one_region (population confirmed beds : Q) : Countries :=
  {| country_data :=
       {[ "Ruritania" :=
            {| Population := population; Confirmed := confirmed;
               Recovered := 0; Deaths := 0; Num_Hospital_Beds := beds |} ]};
     countries := ["Ruritania"] |}.

(** *** The rest of run_app, and the class Countries *)

(** **** constants.Countries as constants.py defines it

    The class body of [constants.py] binds two names, [data] and [countries];
    [app.py] reads [countries] and [country_data].  The functions above take
    the table [app.py] reads as an input; the ones below run [app.py] against
    the class as it is written. *)

(** What a class attribute holds. *)
Inductive attribute : Type :=
| Table (t : gmap string CountryData)
| Names (l : list string).

(** The class body, lines 11 to 15 of [constants.py], on the rows of
    [data/country_data.csv] (the "Country" cell and the other cells of each
    row, in file order): [to_dict(orient="index")] needs distinct row names
    and gives the dict [data]; [countries] is [list(data.keys())]. *)
Definition Countries_class (rows : list (string * CountryData))
  : result (list (string * attribute)) :=
  if bool_decide (NoDup (dict_keys rows))
  then Ok [ ("data", Table (list_to_map rows));
            ("countries", Names (dict_keys rows)) ]
  else Raise ValueError.

(** [constants.Countries.<name>] *)
Definition getattr (cls : list (string * attribute)) (name : string)
  : result attribute :=
  match dict_get cls name with
  | Ok a => Ok a
  | Raise _ => Raise AttributeError
  end.

(** An attribute used as the options of the select box. *)
Definition as_names (a : attribute) : result (list string) :=
  match a with
  | Names l => Ok l
  | Table t => Raise TypeError
  end.

(** An attribute subscripted with a country name. *)
Definition as_table (a : attribute) : result (gmap string CountryData) :=
  match a with
  | Table t => Ok t
  | Names l => Raise TypeError
  end.

(** A string is true unless it is empty; [None] is false. *)
Definition truthy (country : option string) : bool :=
  match country with
  | Some name => negb (String.eqb name "")
  | None => false
  end.

(** The class body of [Sidebar] against the class: [countries] is read for
    the select box (line 17), [country_data] under [if country:] (line 22),
    before the slider and the radio buttons are made. *)
Definition Sidebar_as_given (cls : list (string * attribute)) (ui : UI)
  : result SidebarState :=
  a <- getattr cls "countries" ;;
  names <- as_names a ;;
  if truthy (st_selectbox names (chosen_country ui))
  then (a' <- getattr cls "country_data" ;;
        t <- as_table a' ;;
        Sidebar {| country_data := t; countries := names |} ui)
  else (* the table is not read on this branch *)
       Sidebar {| country_data := ∅; countries := names |} ui.

(** The script from the top: the class bodies, then [run_app], which reads
    [country_data] again at line 88. *)
Definition run_app_as_given
    (get_predictions :
       models.TrueInfectedCases -> models.SIR -> models.DeathToll ->
       models.Hospitalization -> Q -> Q -> Z -> result models.DataFrame)
    (rows : list (string * CountryData)) (ui : UI) : result RunApp :=
  cls <- Countries_class rows ;;
  _ <- Sidebar_as_given cls ui ;;
  a <- getattr cls "countries" ;;
  names <- as_names a ;;
  a' <- getattr cls "country_data" ;;
  t <- as_table a' ;;
  run_app get_predictions {| country_data := t; countries := names |} ui.

(** [df.Status.isin(statuses)], row by row *)
Definition isin (statuses : list models.Status) (r : models.Row) : bool :=
  existsb (fun status => has_status status r) statuses.

(** Line 130: [df[~df.Status.isin(["Need Hospitalization",
    "Need Ventilation"])]], the table of the infection chart. *)
Definition df_base (df : models.DataFrame) : models.DataFrame :=
  List.filter
    (fun r => negb (isin [models.NeedHospitalization; models.NeedVentilation] r))
    df.

(** Line 139: [df[df.Status.isin(["Infected", "Need Hospitalization"])]], the
    table of the hospitalization chart. *)
Definition df_hospital (df : models.DataFrame) : models.DataFrame :=
  List.filter (isin [models.Infected; models.NeedHospitalization]) df.

(** Python's [round(x)] of a number to an int: to the nearest integer, a tie
    to the even one. *)
Definition py_round (x : Q) : Z :=
  let f := Qfloor x in
  match Qcompare (x - inject_Z f) (1 # 2) with
  | Lt => f
  | Gt => (f + 1)%Z
  | Eq => if Z.even f then f else (f + 1)%Z
  end.

(** Line 151: [round(num_hospital_beds / 100) * 100], the number of beds the
    text quotes.  The quotient is taken exactly here, in binary64 by the
    interpreter.  For a whole number of beds up to 10^12 the two agree on
    what [round] returns: a quotient that is a multiple of one half is a
    double, and any other is at least 0.01 away from every multiple of one
    half while its double is within 2^-20 of it.  From about 10^16 on they
    differ. *)
Definition beds_rounded (num_hospital_beds : Q) : Z :=
  (py_round (num_hospital_beds / 100) * 100)%Z.

(** The state of the page is one the widgets can be in: the slider handle
    within the slider's bounds, the period one of the three radio buttons. *)
Definition page_in_range (ui : UI) : bool :=
  let v := default constants.AverageDailyContacts.default (slider_handle ui) in
  ((constants.AverageDailyContacts.min <=? v)
   && (v <=? constants.AverageDailyContacts.max))%Z
  && (default 0 (chosen_period ui) <? 3)%nat.


(** A dict of two countries, and a prediction step that returns the same two
    rows whatever it is given: inputs to run the rest of [run_app] on. *)
Definition two_countries : list (string * CountryData) :=
  [ ("Ruritania",
      {| Population := 1000000; Confirmed := 100; Recovered := 0;
         Deaths := 0; Num_Hospital_Beds := 5000 |});
    ("Elbonia",
      {| Population := 1000; Confirmed := 5; Recovered := 0;
         Deaths := 0; Num_Hospital_Beds := 10 |}) ].

Definition flat_predictions
    (_ : models.TrueInfectedCases) (_ : models.SIR) (_ : models.DeathToll)
    (_ : models.Hospitalization) (confirmed _ : Q) (_ : Z)
  : result models.DataFrame :=
  Ok [ models.mkRow 0 models.NeedHospitalization 200;
       models.mkRow 0 models.Confirmed confirmed ].

End app.

(** * Properties *)

(** ** The configuration *)

Lemma rate_orderedb_spec p : rate_orderedb p = true <-> rate_ordered p.
Proof.
  unfold rate_orderedb, rate_ordered.
  rewrite andb_true_iff, !Qle_bool_iff. tauto.
Qed.

Lemma unit_fractionb_spec x : unit_fractionb x = true <-> unit_fraction x.
Proof.
  unfold unit_fractionb, unit_fraction.
  rewrite andb_true_iff, !Qle_bool_iff. tauto.
Qed.

Lemma rate_in_unitb_spec p : rate_in_unitb p = true <-> rate_in_unit p.
Proof.
  unfold rate_in_unitb, rate_in_unit.
  rewrite !andb_true_iff, !unit_fractionb_spec. tauto.
Qed.

(** A decidable test that passes on every element of an explicit list. *)
Lemma Forall_of_forallb {A} (P : A -> Prop) (f : A -> bool) (l : list A) :
  (forall a, f a = true -> P a) -> forallb f l = true -> Forall P l.
Proof.
  intros Hf Hl. apply Forall_forall. intros a Ha.
  apply Hf. rewrite forallb_forall in Hl. apply Hl.
  now apply list_elem_of_In.
Qed.

(** C1 (the code departs from the invariant).  The bounds of [RemovalRate]
    are the wrong way round: [max < default < min] (1/14 < 1/10 < 1/7), so
    [min <= default <= max] fails for it, in exact arithmetic and on the
    doubles alike.  The other six parameters do satisfy the invariant, and
    exchanging the two bounds of [RemovalRate] restores it. *)
Theorem RemovalRate_bounds_reversed :
  rate_max RemovalRate < rate_default RemovalRate
  /\ rate_default RemovalRate < rate_min RemovalRate
  /\ ~ rate_ordered RemovalRate
  /\ Forall rate_ordered (all_but "RemovalRate")
  /\ length (all_but "RemovalRate") = 6%nat
  /\ binary64.passing binary64.ordered =
       [ "TransmissionRatePerContact"; "AscertainmentRate"; "MortalityRate";
         "HospitalizationRate"; "VentilationRate" ].
Proof.
  assert (Hmax : rate_max RemovalRate < rate_default RemovalRate)
    by reflexivity.
  assert (Hmin : rate_default RemovalRate < rate_min RemovalRate)
    by reflexivity.
  split; [exact Hmax|]. split; [exact Hmin|]. split; [|split; [|split]].
  - intros [Hle _]. apply (Qlt_not_le _ _ Hmin Hle).
  - apply (Forall_of_forallb _ rate_orderedb).
    + intros a. apply rate_orderedb_spec.
    + vm_compute. reflexivity.
  - vm_compute. reflexivity.
  - vm_compute. reflexivity.
Qed.

(** C3.  The process-wide defaults are those of end-to-end scenario 1:
    transmission rate per contact 0.018, removal rate 0.1 (written [1 / 10]),
    ascertainment rate 0.1 and 20 daily contacts; the doubles the interpreter
    computes are the doubles of the literals 0.018 and 0.1. *)
Theorem defaults_match_scenario_1 :
  constants.TransmissionRatePerContact.default == 0.018
  /\ constants.RemovalRate.default == 0.1
  /\ constants.AscertainmentRate.default == 0.1
  /\ constants.AverageDailyContacts.default = 20%Z
  /\ PrimFloat.eqb binary64.TransmissionRatePerContact.default
       binary64.lit_0_018 = true
  /\ PrimFloat.eqb binary64.RemovalRate.default binary64.lit_0_1 = true
  /\ PrimFloat.eqb binary64.AscertainmentRate.default binary64.lit_0_1 = true.
Proof.
  split; [reflexivity|].
  split; [reflexivity|].
  split; [reflexivity|].
  split; [reflexivity|].
  split; [vm_compute; reflexivity|].
  split; vm_compute; reflexivity.
Qed.

(** C5 fails as stated: the contact rate is a count of daily contacts, with
    default 20 and maximum 100, not a fraction. *)
Lemma contact_rate_not_a_fraction :
  ~ (forall p, In p rate_parameters -> rate_in_unit p).
Proof.
  intros H.
  destruct (H AverageDailyContacts) as (_ & [_ Hd] & _).
  - simpl. tauto.
  - revert Hd. vm_compute. intros Hd. apply Hd. reflexivity.
Qed.

(** C5, amended.  Every rate parameter other than the contact rate has its
    min, default and max in [0,1] (the doubles too); the three values of the
    contact rate are the integers 0, 20 and 100. *)
Theorem rates_are_fractions_but_contacts :
  Forall rate_in_unit (all_but "AverageDailyContacts")
  /\ length (all_but "AverageDailyContacts") = 6%nat
  /\ binary64.passing
       (fun a b c => binary64.in_unit a && binary64.in_unit b
                     && binary64.in_unit c)
     = map fst binary64.rates
  /\ constants.AverageDailyContacts.min = 0%Z
  /\ constants.AverageDailyContacts.default = 20%Z
  /\ constants.AverageDailyContacts.max = 100%Z.
Proof.
  split; [|split; [|split; [|split; [|split]]]].
  - apply (Forall_of_forallb _ rate_in_unitb).
    + intros a. apply rate_in_unitb_spec.
    + vm_compute. reflexivity.
  - vm_compute. reflexivity.
  - vm_compute. reflexivity.
  - reflexivity.
  - reflexivity.
  - reflexivity.
Qed.

(** ** The compartmental model *)

Section trajectory_facts.

Import models.

Variable m : SIR.
Variable N : Q.



(** A property of the first state that every step preserves holds on every
    day. *)
Lemma trajectory_invariant (P : SimulationState -> Prop) st days :
  (forall s, P s -> P (step m N s)) ->
  P st -> Forall P (trajectory m N st days).
Proof.
  intros Hstep. revert st.
  induction days as [|d IH]; intros st Hst; simpl.
  - constructor; [exact Hst | constructor].
  - constructor; [exact Hst|]. apply IH. now apply Hstep.
Qed.

Hypothesis N_nonneg : 0 <= N.




(** No infected: the state is disease-free. *)
Lemma step_disease_free st :
  I_t st == 0 -> I_t (step m N st) == 0.
Proof.
  intros HI. unfold step; simpl.
  assert (Hx : I_t st +
               transmissionRatePerContact m * dailyContactRate m * S_t st
               * I_t st / N - removalRate m * I_t st == 0).
  { rewrite HI. unfold Qdiv. ring. }
  unfold clamp. rewrite Hx.
  rewrite Q.max_r.
  - apply Q.min_l. exact N_nonneg.
  - apply Q.min_glb; [apply Qle_refl | exact N_nonneg].
Qed.

End trajectory_facts.

Section conservation.

Import models.

Variable m : SIR.
Variable N : Q.

Hypothesis N_pos : 0 < N.
Hypothesis transmission_nonneg : 0 <= transmissionRatePerContact m.
Hypothesis contact_nonneg : 0 <= dailyContactRate m.
Hypothesis removal_fraction : unit_fraction (removalRate m).

(** The daily infection rate does not exceed one. *)
Hypothesis infection_rate_le_1 :
  transmissionRatePerContact m * dailyContactRate m <= 1.


End conservation.




(** The same run on doubles: the excess on day 2 is no rounding error. *)
Example conservation_broken_on_doubles :
  let day2 := binary64.step binary64.lit_0_018 100 binary64.lit_0_1 100
                (binary64.step binary64.lit_0_018 100 binary64.lit_0_1 100
                   (50, 50, 0))%float in
  PrimFloat.ltb 103 (binary64.total day2) = true
  /\ PrimFloat.ltb (binary64.total day2) 104 = true.
Proof. split; vm_compute; reflexivity. Qed.



(** ** The control surface *)

(** What a side bar that was built holds: the slider's value lies between the
    bounds of [AverageDailyContacts] and is its default while the handle is
    untouched; the period is the value [horizon] gives to one of its keys. *)
Lemma Sidebar_Ok c ui sb :
  app.Sidebar c ui = Ok sb ->
  app.country sb = app.st_selectbox (app.countries c) (app.chosen_country ui)
  /\ app.st_slider constants.AverageDailyContacts.min
       constants.AverageDailyContacts.max
       constants.AverageDailyContacts.default (app.slider_handle ui)
     = Ok (app.contact_rate sb)
  /\ exists key,
       app.st_radio (dict_keys app.horizon) 0 (app.chosen_period ui) = Ok key
       /\ dict_get app.horizon key = Ok (app.num_days_for_prediction sb).
Proof.
  unfold app.Sidebar.
  destruct (match app.st_selectbox _ _ with Some _ => _ | None => _ end);
    cbn [bind]; [|discriminate].
  destruct (app.st_slider _ _ _ _) as [v|]; cbn [bind]; [|discriminate].
  destruct (app.st_radio _ _ _) as [key|]; cbn [bind]; [|discriminate].
  destruct (dict_get app.horizon key) as [d|] eqn:Hd; cbn [bind];
    [|discriminate].
  intros [= <-]; cbn. repeat split. exists key. now split.
Qed.

Lemma st_slider_Ok lo hi value handle v :
  app.st_slider lo hi value handle = Ok v ->
  (lo <= value <= hi)%Z /\ (lo <= v <= hi)%Z /\ v = default value handle.
Proof.
  unfold app.st_slider.
  destruct ((lo <=? value)%Z && (value <=? hi)%Z) eqn:E1; simpl;
    [|discriminate].
  destruct ((lo <=? default value handle)%Z && (default value handle <=? hi)%Z)
    eqn:E2; simpl; [|discriminate].
  intros [= <-].
  apply andb_true_iff in E1 as [? ?], E2 as [? ?]. lia.
Qed.

(** C4.  [run_app] builds the four models from the process-wide defaults and
    the contact rate of the side bar, and from nothing else: the SIR model
    gets the default transmission rate, that contact rate and the default
    removal rate; the estimator, the death-toll model and the hospitalization
    model get the default ascertainment, mortality, hospitalization and
    ventilation rates.  (A negative contact rate, which the slider cannot
    give, is refused by the SIR model.) *)
Theorem run_app_models_defaults (contact_rate : Z) :
  app.run_app_models contact_rate =
    if (0 <=? contact_rate)%Z
    then Ok {| app.sir_model :=
                 models.Build_SIR
                   constants.TransmissionRatePerContact.default
                   (inject_Z contact_rate)
                   constants.RemovalRate.default;
               app.true_cases_estimator :=
                 models.Build_TrueInfectedCases
                   constants.AscertainmentRate.default;
               app.death_toll_model :=
                 models.Build_DeathToll constants.MortalityRate.default;
               app.hospitalization_model :=
                 models.Build_Hospitalization
                   constants.HospitalizationRate.default
                   constants.VentilationRate.default |}
    else Raise InvalidParameterError.
Proof.
  unfold app.run_app_models, models.SIRModel.
  assert (E : Qle_bool 0 (inject_Z contact_rate) = (0 <=? contact_rate)%Z).
  { unfold Qle_bool, inject_Z. cbn [Qnum Qden].
    now rewrite Z.mul_0_l, Z.mul_1_r. }
  rewrite E.
  change (unit_fractionb constants.TransmissionRatePerContact.default)
    with true.
  change (unit_fractionb constants.RemovalRate.default) with true.
  destruct (0 <=? contact_rate)%Z; reflexivity.
Qed.

(** Picking another period on a page whose side bar was built changes the
    number of days and nothing else. *)
Lemma Sidebar_other_period c ui sb i d :
  app.Sidebar c ui = Ok sb ->
  [90; 180; 365]%Z !! i = Some d ->
  app.Sidebar c {| app.chosen_country := app.chosen_country ui;
                   app.slider_handle := app.slider_handle ui;
                   app.chosen_period := Some i |}
  = Ok {| app.country := app.country sb;
          app.contact_rate := app.contact_rate sb;
          app.num_days_for_prediction := d |}.
Proof.
  unfold app.Sidebar.
  cbn [app.chosen_country app.slider_handle app.chosen_period].
  destruct (match app.st_selectbox _ _ with Some _ => _ | None => _ end);
    cbn [bind]; [|discriminate].
  destruct (app.st_slider _ _ _ _) as [v|]; cbn [bind]; [|discriminate].
  destruct (app.st_radio _ _ (app.chosen_period ui)) as [key|];
    cbn [bind]; [|discriminate].
  destruct (dict_get app.horizon key) as [d'|]; cbn [bind]; [|discriminate].
  intros [= <-] Hi. cbn [app.country app.contact_rate].
  destruct i as [|[|[|i]]]; simpl in Hi; try discriminate;
    injection Hi as <-; reflexivity.
Qed.

(** C6.  Whatever the state of the page, the horizon a side bar holds is the
    one the period selector stands at: 90 for the first radio button (where
    it stands to begin with), 180 for the second, 365 for the third.  So it
    is 90, 180 or 365, and each of the three is had by picking its button,
    the rest of the page left as it is. *)
Theorem horizon_is_90_180_or_365 c ui sb :
  app.Sidebar c ui = Ok sb ->
  (app.num_days_for_prediction sb = 90%Z
   \/ app.num_days_for_prediction sb = 180%Z
   \/ app.num_days_for_prediction sb = 365%Z)
  /\ [90; 180; 365]%Z !! default 0%nat (app.chosen_period ui)
     = Some (app.num_days_for_prediction sb)
  /\ (forall i d,
        [90; 180; 365]%Z !! i = Some d ->
        app.Sidebar c {| app.chosen_country := app.chosen_country ui;
                         app.slider_handle := app.slider_handle ui;
                         app.chosen_period := Some i |}
        = Ok {| app.country := app.country sb;
                app.contact_rate := app.contact_rate sb;
                app.num_days_for_prediction := d |}).
Proof.
  intros H.
  assert (Hpos : [90; 180; 365]%Z !! default 0%nat (app.chosen_period ui)
                 = Some (app.num_days_for_prediction sb)).
  { apply Sidebar_Ok in H as (_ & _ & key & Hkey & Hd).
    unfold app.st_radio in Hkey.
    destruct (default 0%nat (app.chosen_period ui)) as [|[|[|n]]];
      simpl in Hkey; try discriminate;
      injection Hkey as <-; cbn in Hd; injection Hd as <-; reflexivity. }
  split; [|split; [exact Hpos|]].
  - destruct (default 0%nat (app.chosen_period ui)) as [|[|[|n]]];
      simpl in Hpos; try discriminate; injection Hpos as <-; auto.
  - intros i d Hi. now apply Sidebar_other_period.
Qed.

(** Twelve months picked on the page of a country. *)
Lemma horizon_of_twelve_months :
  (365%Z = 90%Z \/ 365%Z = 180%Z \/ 365%Z = 365%Z)
  /\ [90; 180; 365]%Z !! 2%nat = Some 365%Z
  /\ (forall i d,
        [90; 180; 365]%Z !! i = Some d ->
        app.Sidebar (app.one_region 1000000 100 5000)
          {| app.chosen_country := None;
             app.slider_handle := None;
             app.chosen_period := Some i |}
        = Ok {| app.country := Some "Ruritania";
                app.contact_rate := 20;
                app.num_days_for_prediction := d |}).
Proof.
  apply (horizon_is_90_180_or_365
           (app.one_region 1000000 100 5000)
           {| app.chosen_country := None; app.slider_handle := None;
              app.chosen_period := Some 2%nat |}
           {| app.country := Some "Ruritania"; app.contact_rate := 20;
              app.num_days_for_prediction := 365 |}).
  reflexivity.
Defined.

(** C7.  Whatever the state of the page, the contact rate a side bar holds
    lies between 0 and 100, the min and max of [AverageDailyContacts] the
    slider is given, and it is the default 20 of [AverageDailyContacts] while
    the slider is untouched. *)
Theorem contact_rate_within_0_100 c ui sb :
  app.Sidebar c ui = Ok sb ->
  (0 <= app.contact_rate sb <= 100)%Z
  /\ (constants.AverageDailyContacts.min <= app.contact_rate sb
      <= constants.AverageDailyContacts.max)%Z
  /\ (app.slider_handle ui = None -> app.contact_rate sb = 20%Z).
Proof.
  intros H. apply Sidebar_Ok in H as (_ & Hs & _).
  apply st_slider_Ok in Hs as (_ & Hv & Hd).
  split; [exact Hv|]. split; [exact Hv|].
  intros E. rewrite E in Hd. exact Hd.
Qed.

(** The slider moved to 35, twelve months picked. *)
Lemma contact_rate_of_moved_slider :
  (0 <= 35 <= 100)%Z
  /\ (constants.AverageDailyContacts.min <= 35
      <= constants.AverageDailyContacts.max)%Z
  /\ (Some 35%Z = None -> 35%Z = 20%Z).
Proof.
  apply (contact_rate_within_0_100
           {| app.country_data := ∅; app.countries := [] |}
           {| app.chosen_country := None; app.slider_handle := Some 35%Z;
              app.chosen_period := Some 2%nat |}
           {| app.country := None; app.contact_rate := 35;
              app.num_days_for_prediction := 365 |}).
  reflexivity.
Defined.

(** Each of the three periods can be picked. *)
Lemma every_horizon_can_be_picked :
  map (fun i =>
         sb <- app.Sidebar {| app.country_data := ∅; app.countries := [] |}
                 {| app.chosen_country := None; app.slider_handle := None;
                    app.chosen_period := Some i |} ;;
         Ok (app.num_days_for_prediction sb))
      [0%nat; 1%nat; 2%nat]
  = [Ok 90%Z; Ok 180%Z; Ok 365%Z].
Proof. reflexivity. Qed.

(** ** The run *)

(** Looking a country up in a table whose bed counts were replaced gives the
    entry of the original table, up to its bed count. *)
Lemma country_lookup_with_beds beds c country :
  app.country_lookup (app.with_beds beds c) country =
    match country with
    | Some name =>
        e <- app.country_lookup c country ;; Ok (app.set_beds e (beds name))
    | None => Raise KeyError
    end.
Proof.
  destruct country as [name|]; [|reflexivity].
  unfold app.country_lookup, app.with_beds; cbn [app.country_data].
  rewrite map_lookup_imap.
  destruct (app.country_data c !! name); reflexivity.
Qed.

Lemma Sidebar_with_beds beds c ui :
  app.Sidebar (app.with_beds beds c) ui = app.Sidebar c ui.
Proof.
  unfold app.Sidebar. cbn [app.with_beds app.countries].
  destruct (app.st_selectbox _ _) as [name|]; [|reflexivity].
  rewrite country_lookup_with_beds.
  destruct (app.country_lookup c (Some name)); reflexivity.
Qed.

(** C8.  The table [run_app] gets from the prediction step does not depend on
    hospital-bed counts: replace the bed count of every country of the table
    by any other, and the run, on the same page state and whatever the body
    of [get_predictions], yields the same result, be it a table or a
    failure. *)
Theorem df_independent_of_beds
    (get_predictions :
       models.TrueInfectedCases -> models.SIR -> models.DeathToll ->
       models.Hospitalization -> Q -> Q -> Z -> result models.DataFrame)
    (beds : string -> Q) (c : app.Countries) (ui : app.UI) :
  app.run_app_df get_predictions (app.with_beds beds c) ui
  = app.run_app_df get_predictions c ui.
Proof.
  unfold app.run_app_df.
  rewrite Sidebar_with_beds.
  destruct (app.Sidebar c ui) as [sb|]; [|reflexivity].
  cbn [bind]. rewrite country_lookup_with_beds.
  destruct (app.country sb) as [name|]; [|reflexivity].
  destruct (app.country_lookup c (Some name)) as [e|]; reflexivity.
Qed.

(** *** The peak of a series *)

Lemma fold_max_ge_init xs a : a <= fold_left Qmax xs a.
Proof.
  revert a. induction xs as [|x xs IH]; intros a; simpl.
  - apply Qle_refl.
  - eapply Qle_trans; [apply (Q.le_max_l a x) | apply IH].
Qed.

Lemma fold_max_all_zero xs a :
  a == 0 -> Forall (fun x => x == 0) xs -> fold_left Qmax xs a == 0.
Proof.
  intros Ha Hxs. revert a Ha.
  induction Hxs as [|x xs Hx _ IH]; intros a Ha; simpl.
  - exact Ha.
  - apply IH. rewrite Ha, Hx. apply Q.max_id.
Qed.

Lemma percent_of_positive_peak beds pk :
  0 < pk ->
  app.percent_beds_at_peak beds (Some pk)
  = Some (Qmin (100 * beds / pk) 100).
Proof.
  intros Hpk. unfold app.percent_beds_at_peak.
  destruct (Qeq_bool pk 0) eqn:E; [|reflexivity].
  apply Qeq_bool_iff in E. rewrite E in Hpk.
  now apply Qlt_irrefl in Hpk.
Qed.

(** No guard: on a zero divisor the result is not a quotient but what the
    float division leaves, 100 (inf, capped) with beds and no finite number
    without. *)
Lemma percent_of_zero_peak beds pk :
  pk == 0 ->
  app.percent_beds_at_peak beds (Some pk)
  = if Qle_bool beds 0 then None else Some 100.
Proof.
  intros Hz. unfold app.percent_beds_at_peak.
  apply Qeq_bool_iff in Hz. now rewrite Hz.
Qed.

(** C9.  For every table and every non-negative number of beds, when the
    peak of the "Need Hospitalization" forecasts is positive, the share of
    beds at the peak is [min(100 * num_hospital_beds / peak_occupancy, 100)]:
    between 0 and 100, and 100 as soon as the beds cover the peak. *)
Theorem percent_beds_capped_at_100 (df : models.DataFrame) (beds pk : Q) :
  app.peak_occupancy df = Some pk -> 0 < pk -> 0 <= beds ->
  exists p,
    app.percent_beds_at_peak beds (app.peak_occupancy df) = Some p
    /\ p = Qmin (100 * beds / pk) 100
    /\ 0 <= p /\ p <= 100
    /\ (pk <= beds -> p == 100).
Proof.
  intros Hdf Hpk Hbeds. rewrite Hdf.
  exists (Qmin (100 * beds / pk) 100).
  split; [now apply percent_of_positive_peak|].
  split; [reflexivity|].
  assert (Hq : 0 <= 100 * beds / pk).
  { apply Qle_shift_div_l; [exact Hpk|]. rewrite Qmult_0_l.
    apply Qmult_le_0_compat; [discriminate | exact Hbeds]. }
  split; [apply Q.min_glb; [exact Hq | discriminate]|].
  split; [apply Q.le_min_r|].
  intros Hcover. apply Q.min_r.
  apply Qle_shift_div_l; [exact Hpk|].
  apply Qmult_le_l; [reflexivity | exact Hcover].
Qed.

(** A peak of 200 against 1000 beds: everyone who needs a bed has one. *)
Lemma percent_beds_when_beds_cover_peak :
  exists p,
    app.percent_beds_at_peak 1000
      (app.peak_occupancy
         [ models.mkRow 0 models.Infected 400;
           models.mkRow 0 models.NeedHospitalization 50;
           models.mkRow 1 models.NeedHospitalization 200;
           models.mkRow 2 models.NeedHospitalization 120 ]) = Some p
    /\ p = Qmin (100 * 1000 / 200) 100
    /\ 0 <= p /\ p <= 100
    /\ (200 <= 1000 -> p == 100).
Proof.
  apply (percent_beds_capped_at_100
           [ models.mkRow 0 models.Infected 400;
             models.mkRow 0 models.NeedHospitalization 50;
             models.mkRow 1 models.NeedHospitalization 200;
             models.mkRow 2 models.NeedHospitalization 120 ] 1000 200).
  - vm_compute. reflexivity.
  - reflexivity.
  - unfold Qle; simpl; lia.
Defined.

(** *** The "Need Hospitalization" rows of a projection *)

Section series_facts.

Import models.

Lemma filter_series_same s f day states :
  List.filter (app.has_status s) (series s f day states) = series s f day states.
Proof.
  revert day. induction states as [|st rest IH]; intros day; simpl.
  - reflexivity.
  - unfold app.has_status at 1; simpl.
    rewrite bool_decide_eq_true_2 by reflexivity.
    now rewrite IH.
Qed.

Lemma filter_series_other s s' f day states :
  s' <> s -> List.filter (app.has_status s) (series s' f day states) = [].
Proof.
  intros Hne. revert day.
  induction states as [|st rest IH]; intros day; simpl.
  - reflexivity.
  - unfold app.has_status at 1; simpl.
    rewrite bool_decide_eq_false_2 by exact Hne.
    apply IH.
Qed.

Lemma Forecast_series s f day states :
  map Forecast (series s f day states) = map f states.
Proof.
  revert day. induction states as [|st rest IH]; intros day; simpl.
  - reflexivity.
  - now rewrite IH.
Qed.

(** The peak [run_app] reads off a projection is the largest daily need of
    hospitalization over the simulated states. *)
Lemma peak_of_predictions est sir dt hm confirmed population days df :
  get_predictions est sir dt hm confirmed population days = Ok df ->
  exists states,
    simulate sir (true_cases_predict est confirmed) population
      (Z.to_nat days) = Ok states
    /\ app.peak_occupancy df =
         app.series_max
           (map (fun st => need_hospitalization hm (I_t st)) states).
Proof.
  unfold get_predictions.
  destruct (simulate _ _ _ _) as [states|]; cbn [bind]; [|discriminate].
  intros [= <-]. exists states. split; [reflexivity|].
  unfold app.peak_occupancy.
  rewrite !List.filter_app.
  rewrite filter_series_same.
  rewrite !filter_series_other by discriminate.
  cbn. rewrite app_nil_r.
  now rewrite Forecast_series.
Qed.

End series_facts.

(** *** The divisor of the share of beds *)

Lemma simulate_Ok m I0 N horizon :
  0 < N ->
  models.simulate m I0 N horizon
  = Ok (models.trajectory m N (models.initial_state I0 N) horizon).
Proof.
  intros HN. unfold models.simulate.
  destruct (Qle_bool N 0) eqn:E; [|reflexivity].
  apply Qle_bool_iff in E. exfalso. apply (Qlt_not_le _ _ HN E).
Qed.

Lemma trajectory_head m N st days :
  exists rest, models.trajectory m N st days = st :: rest.
Proof. destruct days; simpl; eauto. Qed.

(** Without infected on day 0 there are none on any day. *)
Lemma disease_free_trajectory m N st days :
  0 <= N -> models.I_t st == 0 ->
  Forall (fun s => models.I_t s == 0) (models.trajectory m N st days).
Proof.
  intros HN H0. apply trajectory_invariant; [|exact H0].
  intros s Hs. now apply step_disease_free.
Qed.

(** With a contact rate the slider can give, the four models are built, the
    estimator and the hospitalization model from the defaults. *)
Lemma run_app_models_Ok (contact_rate : Z) :
  (0 <= contact_rate)%Z ->
  exists ms,
    app.run_app_models contact_rate = Ok ms
    /\ app.true_cases_estimator ms =
         models.Build_TrueInfectedCases constants.AscertainmentRate.default
    /\ app.hospitalization_model ms =
         models.Build_Hospitalization constants.HospitalizationRate.default
           constants.VentilationRate.default.
Proof.
  intros Hc. unfold app.run_app_models, models.SIRModel.
  assert (E : Qle_bool 0 (inject_Z contact_rate) = true).
  { apply Qle_bool_iff. unfold Qle, inject_Z; cbn [Qnum Qden]. lia. }
  rewrite E.
  change (unit_fractionb constants.TransmissionRatePerContact.default)
    with true.
  change (unit_fractionb constants.RemovalRate.default) with true.
  eexists. split; [reflexivity|]. split; reflexivity.
Qed.

(** The need of hospitalization on day 0 under the default rates. *)
Lemma day_0_need confirmed :
  models.need_hospitalization
    (models.Build_Hospitalization constants.HospitalizationRate.default
       constants.VentilationRate.default)
    (models.true_cases_predict
       (models.Build_TrueInfectedCases constants.AscertainmentRate.default)
       confirmed)
  == confirmed * (3 # 2).
Proof.
  unfold models.need_hospitalization, models.true_cases_predict; simpl.
  unfold constants.HospitalizationRate.default,
    constants.AscertainmentRate.default.
  field.
Qed.

(** A run on a region with a positive population and no negative case count,
    under the proportional burden models, gets as far as the division; its
    divisor is at least the need of hospitalization on day 0, and is zero
    when the region has zero confirmed cases. *)
Lemma run_app_peak c ui sb entry :
  app.Sidebar c ui = Ok sb ->
  app.country_lookup c (app.country sb) = Ok entry ->
  0 < app.Population entry ->
  0 <= app.Confirmed entry ->
  exists df pk,
    app.run_app models.get_predictions c ui =
      Ok {| app.df := df;
            app.peak := Some pk;
            app.percent :=
              app.percent_beds_at_peak (app.Num_Hospital_Beds entry)
                (Some pk) |}
    /\ app.Confirmed entry * (3 # 2) <= pk
    /\ (app.Confirmed entry == 0 -> pk == 0).
Proof.
  intros Hsb Hentry Hpop Hconf.
  destruct (Sidebar_Ok _ _ _ Hsb) as (_ & Hslider & _).
  apply st_slider_Ok in Hslider as (_ & Hrange & _).
  destruct (run_app_models_Ok (app.contact_rate sb)) as (ms & Hms & Hest & Hhm);
    [apply Hrange|].
  set (I0 := models.true_cases_predict (app.true_cases_estimator ms)
               (app.Confirmed entry)).
  set (g := fun st : models.SimulationState =>
              models.need_hospitalization (app.hospitalization_model ms)
                (models.I_t st)).
  destruct (models.get_predictions (app.true_cases_estimator ms)
              (app.sir_model ms) (app.death_toll_model ms)
              (app.hospitalization_model ms) (app.Confirmed entry)
              (app.Population entry) (app.num_days_for_prediction sb))
    as [df|e] eqn:Hgp.
  2:{ unfold models.get_predictions in Hgp.
      rewrite simulate_Ok in Hgp by exact Hpop. discriminate Hgp. }
  destruct (peak_of_predictions _ _ _ _ _ _ _ _ Hgp) as (states & Hsim & Hpeak).
  rewrite simulate_Ok in Hsim by exact Hpop. injection Hsim as <-.
  fold I0 g in Hpeak.
  destruct (trajectory_head (app.sir_model ms) (app.Population entry)
              (models.initial_state I0 (app.Population entry))
              (Z.to_nat (app.num_days_for_prediction sb))) as (rest & Hrest).
  pose proof (disease_free_trajectory (app.sir_model ms)
                (app.Population entry)
                (models.initial_state I0 (app.Population entry))
                (Z.to_nat (app.num_days_for_prediction sb))
                (Qlt_le_weak _ _ Hpop)) as Hfree.
  rewrite Hrest in Hpeak, Hfree. cbn [map app.series_max] in Hpeak.
  set (g0 := g (models.initial_state I0 (app.Population entry))) in *.
  assert (Hg0 : g0 == app.Confirmed entry * (3 # 2)).
  { unfold g0, g, I0. cbn [models.initial_state models.I_t].
    rewrite Hest, Hhm. apply day_0_need. }
  exists df, (fold_left Qmax (map g rest) g0).
  split.
  { unfold app.run_app, app.run_app_df.
    rewrite Hsb; cbn [bind]. rewrite Hentry; cbn [bind].
    rewrite Hms; cbn [bind]. rewrite Hgp; cbn [bind].
    now rewrite Hpeak. }
  assert (Hge : g0 <= fold_left Qmax (map g rest) g0)
    by apply fold_max_ge_init.
  split; [lra|].
  intros Hz.
  assert (HI0 : models.I_t (models.initial_state I0 (app.Population entry))
                == 0).
  { cbn [models.initial_state models.I_t]. unfold I0.
    unfold models.true_cases_predict. rewrite Hz. unfold Qdiv. ring. }
  specialize (Hfree HI0). apply Forall_cons in Hfree as [_ Hfree].
  apply fold_max_all_zero; [lra|].
  apply Forall_forall. intros x Hx.
  apply list_elem_of_fmap in Hx as (s & -> & Hs).
  rewrite Forall_forall in Hfree. specialize (Hfree s Hs).
  unfold g, models.need_hospitalization. rewrite Hfree. ring.
Qed.

(** C10.  [run_app] divides by the peak of the "Need Hospitalization"
    forecasts without a guard, so the share of beds is a quotient only under
    the precondition that the peak is positive.  For a run on a region with a
    positive population and no negative case count, under the proportional
    burden models: the run gets as far as the division; the divisor is not
    negative, so it is nonzero exactly when it is positive; it is zero exactly
    when the region has zero confirmed cases; with a positive divisor the
    share is the capped quotient; with a zero divisor nothing is raised and
    the share is what the float division leaves, 100 (inf, capped) with beds
    and no finite number (nan) without. *)
Theorem peak_divisor_zero_iff_no_cases c ui sb entry :
  app.Sidebar c ui = Ok sb ->
  app.country_lookup c (app.country sb) = Ok entry ->
  0 < app.Population entry ->
  0 <= app.Confirmed entry ->
  exists df pk,
    app.run_app models.get_predictions c ui =
      Ok {| app.df := df;
            app.peak := Some pk;
            app.percent :=
              app.percent_beds_at_peak (app.Num_Hospital_Beds entry)
                (Some pk) |}
    /\ 0 <= pk
    /\ (~ pk == 0 <-> 0 < pk)
    /\ (pk == 0 <-> app.Confirmed entry == 0)
    /\ (0 < pk ->
        app.percent_beds_at_peak (app.Num_Hospital_Beds entry) (Some pk)
        = Some (Qmin (100 * app.Num_Hospital_Beds entry / pk) 100))
    /\ (pk == 0 ->
        app.percent_beds_at_peak (app.Num_Hospital_Beds entry) (Some pk)
        = if Qle_bool (app.Num_Hospital_Beds entry) 0 then None
          else Some 100).
Proof.
  intros Hsb Hentry Hpop Hconf.
  destruct (run_app_peak c ui sb entry Hsb Hentry Hpop Hconf)
    as (df & pk & Hrun & Hge & Hzero).
  assert (Hpk : 0 <= pk) by lra.
  exists df, pk.
  split; [exact Hrun|].
  split; [exact Hpk|].
  split.
  { split.
    - intros Hnz. apply Qle_lt_or_eq in Hpk as [Hlt|Heq]; [exact Hlt|].
      exfalso. apply Hnz. now symmetry.
    - intros Hlt Hz. rewrite Hz in Hlt. now apply Qlt_irrefl in Hlt. }
  split; [split; [intros Hz; lra | exact Hzero]|].
  split; [apply percent_of_positive_peak | apply percent_of_zero_peak].
Qed.

(** The theorem at end-to-end scenario 1: a million people, 100 confirmed
    cases, and 5000 beds. *)
Lemma peak_divisor_of_scenario_1 :
  exists df pk,
    app.run_app models.get_predictions (app.one_region 1000000 100 5000)
      app.untouched =
      Ok {| app.df := df;
            app.peak := Some pk;
            app.percent := app.percent_beds_at_peak 5000 (Some pk) |}
    /\ 0 <= pk
    /\ (~ pk == 0 <-> 0 < pk)
    /\ (pk == 0 <-> 100 == 0)
    /\ (0 < pk ->
        app.percent_beds_at_peak 5000 (Some pk)
        = Some (Qmin (100 * 5000 / pk) 100))
    /\ (pk == 0 ->
        app.percent_beds_at_peak 5000 (Some pk)
        = if Qle_bool 5000 0 then None else Some 100).
Proof.
  apply (peak_divisor_zero_iff_no_cases
           (app.one_region 1000000 100 5000) app.untouched
           {| app.country := Some "Ruritania"; app.contact_rate := 20;
              app.num_days_for_prediction := 90 |}
           (app.Build_CountryData 1000000 100 0 0 5000)).
  - reflexivity.
  - reflexivity.
  - reflexivity.
  - unfold Qle; simpl; lia.
Defined.

(** A region of 1000 people and 10 beds without a confirmed case: the run
    reaches the division with a peak of zero, raises nothing, and reports
    that 100 percent of those who need a bed have one. *)
Example zero_cases_zero_divisor :
  exists df pk,
    app.run_app models.get_predictions (app.one_region 1000 0 10)
      app.untouched
    = Ok {| app.df := df; app.peak := Some pk; app.percent := Some 100 |}
    /\ pk == 0.
Proof.
  destruct (run_app_peak (app.one_region 1000 0 10) app.untouched
              {| app.country := Some "Ruritania"; app.contact_rate := 20;
                 app.num_days_for_prediction := 90 |}
              (app.Build_CountryData 1000 0 0 0 10))
    as (df & pk & Hrun & _ & Hzero).
  - reflexivity.
  - reflexivity.
  - reflexivity.
  - apply Qle_refl.
  - exists df, pk.
    assert (Hpk : pk == 0) by (apply Hzero; reflexivity).
    split; [|exact Hpk].
    rewrite Hrun. cbn [app.Num_Hospital_Beds].
    now rewrite (percent_of_zero_peak 10 pk Hpk).
Qed.

(** The replacement does change what the run later compares the peak with:
    the entry looked up has the new bed count. *)
Example with_beds_changes_the_entry :
  app.country_lookup (app.with_beds (fun _ => 7) (app.one_region 1000 5 10))
    (Some "Ruritania")
  = Ok (app.Build_CountryData 1000 5 0 0 7)
  /\ app.country_lookup (app.one_region 1000 5 10) (Some "Ruritania")
     = Ok (app.Build_CountryData 1000 5 0 0 10).
Proof. split; reflexivity. Qed.

(** * Further properties of app.py and constants.py *)

(** ** The peak and the two charts *)

Lemma Qmax_either x y : Qmax x y = x \/ Qmax x y = y.
Proof.
  unfold Qmax, GenericMinMax.gmax. destruct (x ?= y); auto.
Qed.

Lemma fold_max_In xs a :
  fold_left Qmax xs a = a \/ In (fold_left Qmax xs a) xs.
Proof.
  revert a. induction xs as [|x xs IH]; intros a; simpl; [auto|].
  destruct (IH (Qmax a x)) as [E|Hin]; [|auto].
  rewrite E. destruct (Qmax_either a x) as [-> | ->]; auto.
Qed.

Lemma fold_max_upper xs a x :
  In x xs -> x <= fold_left Qmax xs a.
Proof.
  revert a. induction xs as [|y xs IH]; intros a; simpl; [tauto|].
  intros [-> | Hin].
  - eapply Qle_trans; [apply (Q.le_max_r a x) | apply fold_max_ge_init].
  - now apply IH.
Qed.

(** [series.max()] is an entry of the series and no entry is larger. *)
Lemma series_max_spec xs v :
  app.series_max xs = Some v ->
  In v xs /\ (forall x, In x xs -> x <= v).
Proof.
  destruct xs as [|a xs]; simpl; [discriminate|]. intros [= <-].
  split.
  - destruct (fold_max_In xs a) as [-> | H]; auto.
  - intros x [<- | Hin]; [apply fold_max_ge_init | now apply fold_max_upper].
Qed.

Lemma in_need_hospitalization (df : models.DataFrame) x :
  In x (map models.Forecast
          (List.filter (app.has_status models.NeedHospitalization) df))
  <-> exists r, In r df
                /\ models.Status_ r = models.NeedHospitalization
                /\ models.Forecast r = x.
Proof.
  rewrite in_map_iff. split.
  - intros (r & <- & Hr). apply List.filter_In in Hr as [Hin Hs].
    exists r. unfold app.has_status in Hs.
    apply bool_decide_eq_true in Hs. auto.
  - intros (r & Hin & Hs & <-). exists r. split; [reflexivity|].
    apply List.filter_In. split; [exact Hin|].
    unfold app.has_status. now apply bool_decide_eq_true.
Qed.

(** X1.  The peak [run_app] quotes is the forecast of one of the table's
    "Need Hospitalization" rows, and no such row has a larger forecast. *)
Theorem peak_is_largest_need (df : models.DataFrame) (pk : Q) :
  app.peak_occupancy df = Some pk ->
  (exists r, In r df
             /\ models.Status_ r = models.NeedHospitalization
             /\ models.Forecast r = pk)
  /\ (forall r, In r df ->
        models.Status_ r = models.NeedHospitalization ->
        models.Forecast r <= pk).
Proof.
  intros H. apply series_max_spec in H as [Hin Hup]. split.
  - now apply in_need_hospitalization.
  - intros r Hr Hs. apply Hup. apply in_need_hospitalization. eauto.
Qed.

Lemma peak_is_largest_need_example :
  (exists r,
     In r [ models.mkRow 0 models.NeedHospitalization 50;
            models.mkRow 0 models.Infected 900;
            models.mkRow 1 models.NeedHospitalization 200;
            models.mkRow 2 models.NeedHospitalization 120 ]
     /\ models.Status_ r = models.NeedHospitalization
     /\ models.Forecast r = 200)
  /\ (forall r,
        In r [ models.mkRow 0 models.NeedHospitalization 50;
               models.mkRow 0 models.Infected 900;
               models.mkRow 1 models.NeedHospitalization 200;
               models.mkRow 2 models.NeedHospitalization 120 ] ->
        models.Status_ r = models.NeedHospitalization ->
        models.Forecast r <= 200).
Proof.
  apply (peak_is_largest_need
           [ models.mkRow 0 models.NeedHospitalization 50;
             models.mkRow 0 models.Infected 900;
             models.mkRow 1 models.NeedHospitalization 200;
             models.mkRow 2 models.NeedHospitalization 120 ] 200).
  vm_compute. reflexivity.
Defined.

(** X2.  The peak is missing exactly when the table has no "Need
    Hospitalization" row, and then the share of beds has no value either,
    whatever the number of beds. *)
Theorem peak_missing_iff_no_need_rows (df : models.DataFrame) (beds : Q) :
  (app.peak_occupancy df = None <->
   forall r, In r df -> models.Status_ r <> models.NeedHospitalization)
  /\ (app.peak_occupancy df = None ->
      app.percent_beds_at_peak beds (app.peak_occupancy df) = None).
Proof.
  split; [|intros ->; reflexivity].
  unfold app.peak_occupancy.
  destruct (map models.Forecast _) as [|x xs] eqn:E; simpl.
  - split; [|reflexivity]. intros _ r Hr Hs.
    assert (Hx : In (models.Forecast r) []); [|destruct Hx].
    rewrite <- E. apply in_need_hospitalization. eauto.
  - split; [discriminate|]. intros Hno. exfalso.
    assert (Hx : In x (x :: xs)) by (left; reflexivity).
    rewrite <- E in Hx. apply in_need_hospitalization in Hx as (r & Hr & Hs & _).
    exact (Hno r Hr Hs).
Qed.

Lemma filter_filter_implied {A} (f g : A -> bool) (l : list A) :
  (forall a, f a = true -> g a = true) ->
  List.filter f (List.filter g l) = List.filter f l.
Proof.
  intros Hfg. induction l as [|a l IH]; simpl; [reflexivity|].
  destruct (g a) eqn:Hg; simpl.
  - now rewrite IH.
  - destruct (f a) eqn:Hf; [|exact IH].
    apply Hfg in Hf. congruence.
Qed.

Lemma filter_filter_excluded {A} (f g : A -> bool) (l : list A) :
  (forall a, f a = true -> g a = false) ->
  List.filter f (List.filter g l) = [].
Proof.
  intros Hfg. induction l as [|a l IH]; simpl; [reflexivity|].
  destruct (g a) eqn:Hg; simpl; [|exact IH].
  destruct (f a) eqn:Hf; [|exact IH].
  apply Hfg in Hf. congruence.
Qed.

Lemma has_status_true s r :
  app.has_status s r = true <-> models.Status_ r = s.
Proof. unfold app.has_status. apply bool_decide_eq_true. Qed.

(** X3.  The peak quoted in the text is the peak of the rows handed to the
    hospitalization chart: selecting the "Infected" and "Need
    Hospitalization" rows first does not change it.  The rows handed to the
    infection chart have no peak at all. *)
Theorem peak_of_the_charts (df : models.DataFrame) :
  app.peak_occupancy (app.df_hospital df) = app.peak_occupancy df
  /\ app.peak_occupancy (app.df_base df) = None.
Proof.
  unfold app.peak_occupancy, app.df_hospital, app.df_base. split.
  - rewrite filter_filter_implied; [reflexivity|].
    intros r Hr. apply has_status_true in Hr.
    unfold app.isin; simpl. unfold app.has_status at 2.
    rewrite (bool_decide_eq_true_2 _ Hr). now rewrite orb_true_r.
  - rewrite filter_filter_excluded; [reflexivity|].
    intros r Hr. apply has_status_true in Hr.
    unfold app.isin; simpl. unfold app.has_status at 1.
    now rewrite (bool_decide_eq_true_2 _ Hr).
Qed.

Lemma isin_true statuses r :
  app.isin statuses r = true <-> In (models.Status_ r) statuses.
Proof.
  unfold app.isin. rewrite existsb_exists. split.
  - intros (s & Hs & Hr). apply has_status_true in Hr. now subst.
  - intros H. exists (models.Status_ r). split; [exact H|].
    now apply has_status_true.
Qed.

(** X4.  Which rows reach a chart.  A row of the table is handed to the
    infection chart unless it is a "Need Hospitalization" or "Need
    Ventilation" row, and to the hospitalization chart when it is an
    "Infected" or "Need Hospitalization" row.  So a "Need Ventilation" row
    reaches neither chart, every other row reaches one, and only "Infected"
    rows reach both. *)
Theorem rows_of_the_charts (df : models.DataFrame) (r : models.Row) :
  (In r (app.df_base df) <->
   In r df /\ models.Status_ r <> models.NeedHospitalization
   /\ models.Status_ r <> models.NeedVentilation)
  /\ (In r (app.df_hospital df) <->
      In r df /\ (models.Status_ r = models.Infected
                  \/ models.Status_ r = models.NeedHospitalization))
  /\ (models.Status_ r = models.NeedVentilation ->
      ~ In r (app.df_base df) /\ ~ In r (app.df_hospital df))
  /\ (In r df -> models.Status_ r <> models.NeedVentilation ->
      In r (app.df_base df) \/ In r (app.df_hospital df))
  /\ (In r (app.df_base df) /\ In r (app.df_hospital df) <->
      In r df /\ models.Status_ r = models.Infected).
Proof.
  assert (Hb : In r (app.df_base df) <->
               In r df /\ models.Status_ r <> models.NeedHospitalization
               /\ models.Status_ r <> models.NeedVentilation).
  { unfold app.df_base. rewrite List.filter_In, negb_true_iff.
    rewrite <- not_true_iff_false, isin_true. simpl.
    intuition congruence. }
  assert (Hh : In r (app.df_hospital df) <->
               In r df /\ (models.Status_ r = models.Infected
                           \/ models.Status_ r = models.NeedHospitalization)).
  { unfold app.df_hospital. rewrite List.filter_In, isin_true. simpl.
    intuition congruence. }
  split; [exact Hb|]. split; [exact Hh|].
  rewrite Hb, Hh.
  destruct (models.Status_ r); repeat split; intros; intuition congruence.
Qed.

(** ** The share of beds *)




(** X6.  The share of beds grows with the beds and shrinks with the peak:
    with no fewer beds against no higher a peak, the share is no smaller. *)
Theorem share_monotone (beds1 beds2 pk1 pk2 : Q) :
  0 <= beds1 -> beds1 <= beds2 -> 0 < pk1 -> pk1 <= pk2 ->
  exists p1 p2,
    app.percent_beds_at_peak beds1 (Some pk2) = Some p1
    /\ app.percent_beds_at_peak beds2 (Some pk1) = Some p2
    /\ p1 <= p2.
Proof.
  intros Hb0 Hb Hpk1 Hpk.
  assert (Hpk2 : 0 < pk2) by (eapply Qlt_le_trans; eassumption).
  eexists _, _.
  split; [now apply percent_of_positive_peak|].
  split; [now apply percent_of_positive_peak|].
  apply Q.min_le_compat_r.
  apply Qle_shift_div_r; [exact Hpk2|].
  assert (Hq : 0 <= 100 * beds2 / pk1).
  { apply Qle_shift_div_l; [exact Hpk1|]. lra. }
  assert (E : 100 * beds2 / pk1 * pk1 == 100 * beds2).
  { field. intros Hz. rewrite Hz in Hpk1. now apply Qlt_irrefl in Hpk1. }
  apply Qle_trans with (100 * beds2 / pk1 * pk1).
  - rewrite E. lra.
  - rewrite !(Qmult_comm (100 * beds2 / pk1)).
    now apply Qmult_le_compat_r.
Qed.

Lemma share_monotone_example :
  exists p1 p2,
    app.percent_beds_at_peak 30 (Some 400) = Some p1
    /\ app.percent_beds_at_peak 60 (Some 200) = Some p2
    /\ p1 <= p2.
Proof.
  apply (share_monotone 30 60 200 400).
  - unfold Qle; simpl; lia.
  - unfold Qle; simpl; lia.
  - reflexivity.
  - unfold Qle; simpl; lia.
Defined.

(** ** The number of beds the text quotes *)

(** [round] moves a number by at most one half. *)
Lemma py_round_near x :
  x - (1 # 2) <= inject_Z (app.py_round x)
  /\ inject_Z (app.py_round x) <= x + (1 # 2).
Proof.
  unfold app.py_round.
  pose proof (Qfloor_le x) as Hlo.
  pose proof (Qlt_floor x) as Hhi.
  rewrite inject_Z_plus in Hhi.
  change (inject_Z 1) with 1 in Hhi.
  destruct (Qcompare_spec (x - inject_Z (Qfloor x)) (1 # 2)) as [E|E|E].
  - destruct (Z.even (Qfloor x));
      rewrite ?inject_Z_plus; change (inject_Z 1) with 1; lra.
  - lra.
  - rewrite inject_Z_plus. change (inject_Z 1) with 1. lra.
Qed.

Lemma py_round_comp x y : x == y -> app.py_round x = app.py_round y.
Proof.
  intros E. unfold app.py_round.
  rewrite (Qfloor_comp x y E).
  assert (Ec : Qcompare (x - inject_Z (Qfloor y)) (1 # 2)
               = Qcompare (y - inject_Z (Qfloor y)) (1 # 2))
    by (now rewrite E).
  now rewrite Ec.
Qed.

Lemma py_round_monotone x y :
  x <= y -> (app.py_round x <= app.py_round y)%Z.
Proof.
  intros Hxy.
  destruct (Z.le_gt_cases (app.py_round x) (app.py_round y)) as [H|H];
    [exact H|].
  exfalso.
  destruct (py_round_near x) as [_ Hx], (py_round_near y) as [Hy _].
  assert (H1 : inject_Z (app.py_round y) + 1 <= inject_Z (app.py_round x)).
  { change 1 with (inject_Z 1). rewrite <- inject_Z_plus.
    rewrite <- Zle_Qle. lia. }
  assert (E : x == y) by lra.
  apply py_round_comp in E. lia.
Qed.

Lemma inject_Z_beds_rounded beds :
  inject_Z (app.beds_rounded beds)
  == inject_Z (app.py_round (beds / 100)) * 100.
Proof.
  unfold app.beds_rounded. rewrite inject_Z_mult. reflexivity.
Qed.

(** X7.  For a whole number of beds up to 10^12, the number of beds the
    text quotes is a whole number of hundreds, at most 50 away from the
    number of beds of the table. *)
Theorem beds_rounded_within_50 (n : Z) :
  (0 <= n <= 1000000000000)%Z ->
  (app.beds_rounded (inject_Z n) mod 100 = 0
   /\ n - 50 <= app.beds_rounded (inject_Z n) <= n + 50)%Z.
Proof.
  intros _.
  split; [unfold app.beds_rounded; apply Z.mod_mul; discriminate|].
  pose proof (inject_Z_beds_rounded (inject_Z n)) as E.
  destruct (py_round_near (inject_Z n / 100)) as [Hlo Hhi].
  assert (E' : inject_Z n / 100 * 100 == inject_Z n) by (field; discriminate).
  split; rewrite Zle_Qle.
  - rewrite E. unfold Z.sub. rewrite inject_Z_plus.
    change (inject_Z (- (50))) with (- (50)). lra.
  - rewrite E, inject_Z_plus. change (inject_Z 50) with 50. lra.
Qed.

(** 1249 beds are quoted as 1,200. *)
Lemma beds_rounded_within_50_example :
  (app.beds_rounded (inject_Z 1249) mod 100 = 0
   /\ 1249 - 50 <= app.beds_rounded (inject_Z 1249) <= 1249 + 50)%Z.
Proof.
  apply (beds_rounded_within_50 1249). lia.
Defined.

(** X8.  Rounding keeps the order of bed counts: a table with no fewer beds
    is never quoted with fewer. *)
Theorem beds_rounded_monotone (beds1 beds2 : Q) :
  beds1 <= beds2 -> (app.beds_rounded beds1 <= app.beds_rounded beds2)%Z.
Proof.
  intros H. unfold app.beds_rounded.
  apply Z.mul_le_mono_nonneg_r; [discriminate|].
  apply py_round_monotone.
  apply Qmult_le_compat_r; [exact H | discriminate].
Qed.

Lemma beds_rounded_monotone_example :
  (app.beds_rounded 1249 <= app.beds_rounded 1251)%Z.
Proof.
  apply (beds_rounded_monotone 1249 1251).
  unfold Qle; simpl; lia.
Defined.

Lemma Qfloor_hundredth (n : Z) : Qfloor (inject_Z n / 100) = (n / 100)%Z.
Proof.
  unfold Qdiv, Qmult, Qinv, inject_Z; cbn [Qnum Qden Qfloor].
  now rewrite Z.mul_1_r.
Qed.

Lemma hundredth_remainder (n : Z) :
  inject_Z n / 100 - inject_Z (n / 100) == inject_Z (n mod 100) / 100.
Proof.
  rewrite (Z.div_mod n 100) at 1 by discriminate.
  rewrite inject_Z_plus, inject_Z_mult. change (inject_Z 100) with 100.
  field.
Qed.

(** X9.  For a whole number of beds up to 10^12 the quoted number is the
    nearest hundred, and a count ending in 50 goes to the even hundred: 1250
    beds are quoted as 1,200 and 1350 beds as 1,400. *)
Theorem beds_rounded_of_integer (n : Z) :
  (0 <= n <= 1000000000000)%Z ->
  app.beds_rounded (inject_Z n) =
    (if n mod 100 <? 50 then 100 * (n / 100)
     else if 50 <? n mod 100 then 100 * (n / 100 + 1)
     else if Z.even (n / 100) then 100 * (n / 100)
     else 100 * (n / 100 + 1))%Z.
Proof.
  intros _.
  unfold app.beds_rounded, app.py_round.
  rewrite Qfloor_hundredth.
  assert (Ec : Qcompare (inject_Z n / 100 - inject_Z (n / 100)) (1 # 2)
               = Qcompare (inject_Z (n mod 100) / 100) (1 # 2))
    by (now rewrite hundredth_remainder).
  rewrite Ec. clear Ec.
  assert (Hc : Qcompare (inject_Z (n mod 100) / 100) (1 # 2)
               = (n mod 100 ?= 50)%Z).
  { unfold Qcompare, Qdiv, Qmult, Qinv, inject_Z; cbn [Qnum Qden].
    rewrite Z.mul_1_r.
    change (Z.pos (1 * 100)) with 100%Z. change (Z.pos 2) with 2%Z.
    rewrite Z.mul_1_l.
    destruct (Z.compare_spec (n mod 100) 50) as [E|E|E].
    - rewrite E. reflexivity.
    - apply Z.compare_lt_iff. lia.
    - apply Z.compare_gt_iff. lia. }
  rewrite Hc.
  destruct (Z.compare_spec (n mod 100) 50) as [E|E|E].
  - rewrite E. simpl. destruct (Z.even (n / 100)); lia.
  - destruct (Z.ltb_spec (n mod 100) 50); lia.
  - destruct (Z.ltb_spec (n mod 100) 50); [lia|].
    destruct (Z.ltb_spec 50 (n mod 100)); lia.
Qed.

(** 1350 beds: a tie, to the even hundred. *)
Lemma beds_rounded_of_1350 :
  app.beds_rounded (inject_Z 1350) =
    (if 1350 mod 100 <? 50 then 100 * (1350 / 100)
     else if 50 <? 1350 mod 100 then 100 * (1350 / 100 + 1)
     else if Z.even (1350 / 100) then 100 * (1350 / 100)
     else 100 * (1350 / 100 + 1))%Z.
Proof.
  apply (beds_rounded_of_integer 1350). lia.
Defined.

(** ** The side bar and the run on the country picked *)

Lemma dict_keys_lookup {V} (d : list (string * V)) i :
  dict_keys d !! i = fst <$> d !! i.
Proof.
  unfold dict_keys. revert i.
  induction d as [|[k v] d IH]; intros [|i]; simpl; auto.
Qed.

(** The slider, the radio buttons and the horizon dict: they give the side
    bar its contact rate and its number of days when the page state is in
    range, and stop the run otherwise. *)
Lemma Sidebar_widgets (country : option string) (ui : app.UI) :
  (contact_rate <- app.st_slider constants.AverageDailyContacts.min
                     constants.AverageDailyContacts.max
                     constants.AverageDailyContacts.default
                     (app.slider_handle ui) ;;
   _num_days_for_prediction <-
     app.st_radio (dict_keys app.horizon) 0 (app.chosen_period ui) ;;
   num_days_for_prediction <-
     dict_get app.horizon _num_days_for_prediction ;;
   Ok {| app.country := country;
         app.contact_rate := contact_rate;
         app.num_days_for_prediction := num_days_for_prediction |})
  = if app.page_in_range ui
    then Ok {| app.country := country;
               app.contact_rate :=
                 default constants.AverageDailyContacts.default
                   (app.slider_handle ui);
               app.num_days_for_prediction :=
                 default 0%Z
                   (snd <$> app.horizon !! default 0%nat (app.chosen_period ui))
            |}
    else Raise StreamlitAPIException.
Proof.
  unfold app.page_in_range, app.st_slider.
  change ((constants.AverageDailyContacts.min
           <=? constants.AverageDailyContacts.default)%Z
          && (constants.AverageDailyContacts.default
              <=? constants.AverageDailyContacts.max)%Z) with true.
  cbn [andb].
  destruct ((constants.AverageDailyContacts.min <=? _)%Z && _);
    cbn [bind andb]; [|reflexivity].
  unfold app.st_radio.
  destruct (default 0%nat (app.chosen_period ui)) as [|[|[|p]]];
    reflexivity.
Qed.

(** The number of days a side bar holds is the one of the radio button the
    page stands at. *)
Lemma Sidebar_period c ui sb :
  app.Sidebar c ui = Ok sb ->
  default 0%Z (snd <$> app.horizon !! default 0%nat (app.chosen_period ui))
  = app.num_days_for_prediction sb.
Proof.
  intros H. apply Sidebar_Ok in H as (_ & _ & key & Hkey & Hd).
  unfold app.st_radio in Hkey.
  destruct (default 0%nat (app.chosen_period ui)) as [|[|[|n]]];
    simpl in Hkey; try discriminate;
    injection Hkey as <-; cbn in Hd; injection Hd as <-; reflexivity.
Qed.

(** X12.  When the side bar is built and the country picked is in the table,
    the prediction step is called with the confirmed cases and the population
    of that country, the models built for the contact rate the slider stands
    at (20 to begin with), and the number of days of the period picked; the
    country is the one at the position picked in the select box (the first
    one to begin with). *)
Theorem run_app_df_of_country_picked
    (get_predictions :
       models.TrueInfectedCases -> models.SIR -> models.DeathToll ->
       models.Hospitalization -> Q -> Q -> Z -> result models.DataFrame)
    (c : app.Countries) (ui : app.UI) (sb : app.SidebarState)
    (entry : app.CountryData) :
  app.Sidebar c ui = Ok sb ->
  app.country_lookup c (app.country sb) = Ok entry ->
  app.country sb = app.countries c !! default 0%nat (app.chosen_country ui)
  /\ app.run_app_df get_predictions c ui =
       (ms <- app.run_app_models
                (default constants.AverageDailyContacts.default
                   (app.slider_handle ui)) ;;
        get_predictions (app.true_cases_estimator ms) (app.sir_model ms)
          (app.death_toll_model ms) (app.hospitalization_model ms)
          (app.Confirmed entry) (app.Population entry)
          (default 0%Z
             (snd <$>
                app.horizon !! default 0%nat (app.chosen_period ui)))).
Proof.
  intros Hsb Hentry.
  pose proof (Sidebar_period _ _ _ Hsb) as Hdays.
  destruct (Sidebar_Ok _ _ _ Hsb) as (Hcountry & Hslider & _).
  apply st_slider_Ok in Hslider as (_ & _ & Hrate).
  split; [exact Hcountry|].
  unfold app.run_app_df. rewrite Hsb. cbn [bind].
  rewrite Hentry. cbn [bind].
  now rewrite Hdays, Hrate.
Qed.

(** The second country picked, the slider at 35, six months. *)
Lemma run_app_df_of_country_picked_example :
  Some "Elbonia" = dict_keys app.two_countries !! 1%nat
  /\ app.run_app_df app.flat_predictions
       {| app.country_data := list_to_map app.two_countries;
          app.countries := dict_keys app.two_countries |}
       {| app.chosen_country := Some 1%nat; app.slider_handle := Some 35%Z;
          app.chosen_period := Some 1%nat |} =
       (ms <- app.run_app_models 35 ;;
        app.flat_predictions (app.true_cases_estimator ms) (app.sir_model ms)
          (app.death_toll_model ms) (app.hospitalization_model ms)
          5 1000 180%Z).
Proof.
  apply (run_app_df_of_country_picked app.flat_predictions
           {| app.country_data := list_to_map app.two_countries;
              app.countries := dict_keys app.two_countries |}
           {| app.chosen_country := Some 1%nat; app.slider_handle := Some 35%Z;
              app.chosen_period := Some 1%nat |}
           {| app.country := Some "Elbonia"; app.contact_rate := 35;
              app.num_days_for_prediction := 180 |}
           (app.Build_CountryData 1000 5 0 0 10)).
  - reflexivity.
  - reflexivity.
Defined.

(** ** The script against constants.Countries as it is written *)

(** The class has [countries]; it has no [country_data]. *)
Lemma Countries_class_attributes rows cls :
  app.Countries_class rows = Ok cls ->
  app.getattr cls "countries" = Ok (app.Names (dict_keys rows))
  /\ app.getattr cls "country_data" = Raise AttributeError.
Proof.
  unfold app.Countries_class.
  destruct (bool_decide (NoDup (dict_keys rows))); [|discriminate].
  intros [= <-]. split; reflexivity.
Qed.

(** A side bar that reads no country reads no table. *)
Lemma Sidebar_without_country names ui t :
  app.truthy (app.st_selectbox names (app.chosen_country ui)) = false ->
  app.Sidebar {| app.country_data := t; app.countries := names |} ui =
    if app.page_in_range ui
    then Ok {| app.country := app.st_selectbox names (app.chosen_country ui);
               app.contact_rate :=
                 default constants.AverageDailyContacts.default
                   (app.slider_handle ui);
               app.num_days_for_prediction :=
                 default 0%Z
                   (snd <$> app.horizon !! default 0%nat (app.chosen_period ui))
            |}
    else Raise StreamlitAPIException.
Proof.
  intros Hfalse. unfold app.Sidebar. cbn [app.countries].
  destruct (app.st_selectbox names (app.chosen_country ui)) as [name|].
  - simpl in Hfalse. apply negb_false_iff in Hfalse. rewrite Hfalse.
    cbn [bind]. apply Sidebar_widgets.
  - cbn [bind]. apply Sidebar_widgets.
Qed.

(** The side bar against the class, in closed form. *)
Lemma Sidebar_as_given_closed rows cls ui :
  app.Countries_class rows = Ok cls ->
  app.Sidebar_as_given cls ui =
    if app.truthy (app.st_selectbox (dict_keys rows) (app.chosen_country ui))
    then Raise AttributeError
    else if app.page_in_range ui
    then Ok {| app.country :=
                 app.st_selectbox (dict_keys rows) (app.chosen_country ui);
               app.contact_rate :=
                 default constants.AverageDailyContacts.default
                   (app.slider_handle ui);
               app.num_days_for_prediction :=
                 default 0%Z
                   (snd <$> app.horizon !! default 0%nat (app.chosen_period ui))
            |}
    else Raise StreamlitAPIException.
Proof.
  intros Hcls. apply Countries_class_attributes in Hcls as [Hnames Htable].
  unfold app.Sidebar_as_given. rewrite Hnames. cbn [bind app.as_names].
  destruct (app.truthy _) eqn:Htruthy.
  - rewrite Htable. reflexivity.
  - now apply Sidebar_without_country.
Qed.

(** Had the class the attribute [app.py] reads, the side bar built against
    the class would be the side bar of the table that attribute holds. *)
Lemma Sidebar_as_given_with_attribute cls names t ui :
  app.getattr cls "countries" = Ok (app.Names names) ->
  app.getattr cls "country_data" = Ok (app.Table t) ->
  app.Sidebar_as_given cls ui
  = app.Sidebar {| app.country_data := t; app.countries := names |} ui.
Proof.
  intros Hnames Htable. unfold app.Sidebar_as_given.
  rewrite Hnames. cbn [bind app.as_names].
  destruct (app.truthy _) eqn:Htruthy.
  - rewrite Htable. reflexivity.
  - now rewrite !Sidebar_without_country.
Qed.

(** X10.  With [constants.py] as it is written, the class body of [Sidebar]
    raises AttributeError as soon as a country is picked, whatever the rest
    of the page: the class [Countries] has [data] and [countries] but no
    [country_data], which line 22 reads before the slider is made. *)
Theorem Sidebar_as_given_raises_AttributeError
    (rows : list (string * app.CountryData))
    (cls : list (string * app.attribute)) (ui : app.UI)
    (name : string) (entry : app.CountryData) :
  app.Countries_class rows = Ok cls ->
  rows !! default 0%nat (app.chosen_country ui) = Some (name, entry) ->
  String.eqb name "" = false ->
  app.Sidebar_as_given cls ui = Raise AttributeError.
Proof.
  intros Hcls Hrow Hname.
  rewrite (Sidebar_as_given_closed rows cls ui Hcls).
  unfold app.st_selectbox. rewrite dict_keys_lookup, Hrow.
  simpl. now rewrite Hname.
Qed.

Lemma Sidebar_as_given_example :
  app.Sidebar_as_given
    [ ("data", app.Table (list_to_map app.two_countries));
      ("countries", app.Names (dict_keys app.two_countries)) ]
    app.untouched
  = Raise AttributeError.
Proof.
  apply (Sidebar_as_given_raises_AttributeError app.two_countries _
           app.untouched "Ruritania"
           (app.Build_CountryData 1000000 100 0 0 5000)).
  - reflexivity.
  - reflexivity.
  - reflexivity.
Defined.

(** X11.  With [constants.py] as it is written no run completes, whatever the
    rows of the table, the page and the prediction step; with distinct
    country names and a page state in range the run ends in AttributeError
    (at line 22 when a country is picked, else at line 88, where [run_app]
    reads [country_data]). *)
Theorem run_app_as_given_never_completes
    (get_predictions :
       models.TrueInfectedCases -> models.SIR -> models.DeathToll ->
       models.Hospitalization -> Q -> Q -> Z -> result models.DataFrame)
    (rows : list (string * app.CountryData)) (ui : app.UI) :
  (forall r, app.run_app_as_given get_predictions rows ui <> Ok r)
  /\ (NoDup (dict_keys rows) -> app.page_in_range ui = true ->
      app.run_app_as_given get_predictions rows ui = Raise AttributeError).
Proof.
  unfold app.run_app_as_given.
  destruct (app.Countries_class rows) as [cls|e] eqn:Hcls; cbn [bind].
  - destruct (Countries_class_attributes rows cls Hcls) as [Hnames Htable].
    rewrite (Sidebar_as_given_closed rows cls ui Hcls).
    rewrite Hnames, Htable. cbn [bind app.as_names]. split.
    + intros r. destruct (app.truthy _); [discriminate|].
      destruct (app.page_in_range ui); discriminate.
    + intros _ ->. destruct (app.truthy _); reflexivity.
  - split; [discriminate|].
    intros Hnodup _. exfalso. revert Hcls. unfold app.Countries_class.
    rewrite bool_decide_eq_true_2 by exact Hnodup. discriminate.
Qed.

(** The page as first loaded, on two countries. *)
Lemma run_app_as_given_example :
  app.run_app_as_given app.flat_predictions app.two_countries app.untouched
  = Raise AttributeError.
Proof.
  apply (run_app_as_given_never_completes app.flat_predictions
           app.two_countries app.untouched).
  - apply (bool_decide_unpack _). vm_compute. exact I.
  - reflexivity.
Defined.

Lemma run_app_df_with_beds
    (get_predictions :
       models.TrueInfectedCases -> models.SIR -> models.DeathToll ->
       models.Hospitalization -> Q -> Q -> Z -> result models.DataFrame)
    beds c ui :
  app.run_app_df get_predictions (app.with_beds beds c) ui
  = app.run_app_df get_predictions c ui.
Proof.
  unfold app.run_app_df. rewrite Sidebar_with_beds.
  destruct (app.Sidebar c ui) as [sb|]; [|reflexivity].
  cbn [bind]. rewrite country_lookup_with_beds.
  destruct (app.country sb) as [name|]; [|reflexivity].
  destruct (app.country_lookup c (Some name)) as [e|]; reflexivity.
Qed.

(** X13.  Replacing the bed counts of the table changes one thing in what a
    run computes: the share of beds, which is recomputed from the unchanged
    peak and the new bed count of the country picked.  The table and the
    peak stay as they were. *)
Theorem run_app_with_other_beds
    (get_predictions :
       models.TrueInfectedCases -> models.SIR -> models.DeathToll ->
       models.Hospitalization -> Q -> Q -> Z -> result models.DataFrame)
    (beds : string -> Q) (c : app.Countries) (ui : app.UI)
    (sb : app.SidebarState) (name : string) (r : app.RunApp) :
  app.Sidebar c ui = Ok sb ->
  app.country sb = Some name ->
  app.run_app get_predictions c ui = Ok r ->
  app.run_app get_predictions (app.with_beds beds c) ui =
    Ok {| app.df := app.df r;
          app.peak := app.peak r;
          app.percent := app.percent_beds_at_peak (beds name) (app.peak r) |}.
Proof.
  intros Hsb Hname. unfold app.run_app.
  rewrite run_app_df_with_beds, Sidebar_with_beds, Hsb. cbn [bind].
  rewrite country_lookup_with_beds, Hname.
  destruct (app.country_lookup c (Some name)) as [e|]; cbn [bind];
    [|discriminate].
  destruct (app.run_app_df get_predictions c ui) as [df|]; cbn [bind];
    [|discriminate].
  intros [= <-]. reflexivity.
Qed.

(** Ten beds replaced by seven against a peak of 200. *)
Lemma run_app_with_other_beds_example :
  app.run_app app.flat_predictions
    (app.with_beds (fun _ => 7) (app.one_region 1000 5 10)) app.untouched =
    Ok {| app.df := [ models.mkRow 0 models.NeedHospitalization 200;
                      models.mkRow 0 models.Confirmed 5 ];
          app.peak := Some 200;
          app.percent := app.percent_beds_at_peak 7 (Some 200) |}.
Proof.
  apply (run_app_with_other_beds app.flat_predictions (fun _ => 7)
           (app.one_region 1000 5 10) app.untouched
           {| app.country := Some "Ruritania"; app.contact_rate := 20;
              app.num_days_for_prediction := 90 |}
           "Ruritania"
           {| app.df := [ models.mkRow 0 models.NeedHospitalization 200;
                          models.mkRow 0 models.Confirmed 5 ];
              app.peak := Some 200;
              app.percent := app.percent_beds_at_peak 10 (Some 200) |}).
  - reflexivity.
  - reflexivity.
  - reflexivity.
Defined.
